(** * PeruGo backend: authentication routes and destination seed

    A shallow embedding of the two Express applications of the repository
    ([server.js] and [src/routes/auth.js]) and of the seed script
    ([prisma/seed.js]), with the properties of the specification proved
    about them.

    Layout: JavaScript values, the platform the code runs on (database
    collation, bcryptjs, id generation), a small monad for handlers (store,
    exceptions, log of library calls), the store operations, the handlers
    of both applications, the seed script; then the theorems. *)

From Stdlib Require Import String Ascii ZArith List Bool Lia.
Import ListNotations.
Local Open Scope string_scope.
Local Open Scope Z_scope.
Set Warnings "-register-all".

(** ** JavaScript values *)

(** The values [express.json()] can put into [req.body]: what [JSON.parse]
    produces, plus [undefined] for the result of reading an absent property.
    Numbers are kept to the integers: the handlers only test a number for
    truthiness and compare one with 6.  A string is its sequence of code
    units, so [String.length] is the [length] property. *)
Inductive JsVal : Type :=
| JUndefined
| JNull
| JBool (b : bool)
| JNum (n : Z)
| JStr (s : string)
| JArr (items : list JsVal)
| JObj (fields : list (string * JsVal)).

(** [!!v] *)
Definition truthy (v : JsVal) : bool :=
  match v with
  | JUndefined | JNull => false
  | JBool b => b
  | JNum n => negb (n =? 0)
  | JStr s => negb (s =? "")%string
  | JArr _ | JObj _ => true
  end.

(** [a || b] *)
Definition js_or (a b : JsVal) : JsVal := if truthy a then a else b.

(** [typeof v] *)
Definition typeof (v : JsVal) : string :=
  match v with
  | JUndefined => "undefined"
  | JNull | JArr _ | JObj _ => "object"
  | JBool _ => "boolean"
  | JNum _ => "number"
  | JStr _ => "string"
  end.

(** [v === 'literal'] *)
Definition strict_eq_str (v : JsVal) (lit : string) : bool :=
  match v with
  | JStr s => (s =? lit)%string
  | _ => false
  end.

(** First binding of a key in an association list. *)
Fixpoint assoc {A : Type} (k : string) (l : list (string * A)) : option A :=
  match l with
  | [] => None
  | (k', v) :: rest => if (k' =? k)%string then Some v else assoc k rest
  end.

(** A thrown JavaScript error: its [name] and its [message]. *)
Record Exn : Type := mkExn { exn_name : string; exn_message : string }.

Inductive Res (A : Type) : Type :=
| Val (a : A)
| Thrown (e : Exn).
Arguments Val {A} a.
Arguments Thrown {A} e.

(** [v.k] and the destructuring [const { k } = v], for the keys the code
    reads ([email], [password], [username], [length]; none is an array index
    or a method of a prototype).  Reading a property of [null] or
    [undefined] throws a [TypeError]. *)
Definition get_prop (v : JsVal) (k : string) : Res JsVal :=
  match v with
  | JUndefined | JNull =>
      Thrown (mkExn "TypeError"
                ("Cannot read properties of " ++ match v with JNull => "null" | _ => "undefined" end))
  | JBool _ | JNum _ => Val JUndefined
  | JStr s => Val (if (k =? "length")%string then JNum (Z.of_nat (String.length s)) else JUndefined)
  | JArr items => Val (if (k =? "length")%string then JNum (Z.of_nat (List.length items)) else JUndefined)
  | JObj fields => Val (match assoc k fields with Some x => x | None => JUndefined end)
  end.

(** ** The platform

    What the handlers call and the repository does not contain: the
    comparison of the database collation ([utf8mb4_unicode_ci], declared by
    the migration for every table), the bcryptjs digest, the id that Prisma
    generates for a new row, and the part of the [<] operator that goes
    through a conversion of a string to a number. *)
Class Platform : Type := {
  (** equality of two strings in a [VARCHAR] column under the collation *)
  collate_eqb : string -> string -> bool;
  collate_refl : forall a, collate_eqb a a = true;
  collate_sym : forall a b, collate_eqb a b = collate_eqb b a;
  collate_trans : forall a b c,
    collate_eqb a b = true -> collate_eqb b c = true -> collate_eqb a c = true;
  (** [bcrypt.hash(s, rounds)] once the salt is drawn *)
  bcrypt_digest : Z -> string -> string -> string;
  (** [bcrypt.compare(s, hash)] on two strings *)
  bcrypt_verify : string -> string -> bool;
  bcrypt_verify_digest : forall rounds salt s,
    bcrypt_verify s (bcrypt_digest rounds salt s) = true;
  (** a bcrypt hash has 60 characters *)
  bcrypt_digest_length : forall rounds salt s,
    String.length (bcrypt_digest rounds salt s) = 60%nat;
  (** the id generated for a row, given the ids already in its table *)
  fresh_id : list string -> string;
  fresh_id_fresh : forall ids,
    existsb (collate_eqb (fresh_id ids)) ids = false;
  (** [v < k] for an operand [v] that [ToPrimitive] turns into a string
      (a string or an array): the outcome of [ToNumber] on that string *)
  string_operand_lt : JsVal -> Z -> bool
}.

(** Whether [ToPrimitive(v)] completes. An object of a request has the
    methods of [Object.prototype] unless an own property [toString] hides
    the one that returns a string: that property is a JSON value, not a
    function, and [valueOf] returns the object itself, so the conversion
    fails. An array is joined, which converts its elements. *)
Fixpoint converts (v : JsVal) : bool :=
  match v with
  | JObj fields =>
      match assoc "toString" fields with
      | Some _ => false
      | None => true
      end
  | JArr items => forallb converts items
  | _ => true
  end.

Definition CannotConvert : Exn :=
  mkExn "TypeError" "Cannot convert object to primitive value".

(** The conversion of [v] in a template literal; the string is only
    logged, so what is kept is whether the conversion throws. *)
Definition to_primitive (v : JsVal) : Res unit :=
  if converts v then Val tt else Thrown CannotConvert.

(** [v < k] with [k] a number (abstract relational comparison). *)
Definition js_lt `{Platform} (v : JsVal) (k : Z) : Res bool :=
  match v with
  | JUndefined => Val false             (* NaN < k *)
  | JNull => Val (0 <? k)
  | JBool b => Val ((if b then 1 else 0) <? k)
  | JNum n => Val (n <? k)
  | JStr _ => Val (string_operand_lt v k)
  | JArr _ => if converts v then Val (string_operand_lt v k) else Thrown CannotConvert
  | JObj _ => if converts v then Val false else Thrown CannotConvert
                                        (* "[object Object]" is NaN *)
  end.

(** ** Tokens and responses *)

(** What [jwt.sign] returns, kept structured: the claims and the key they
    are signed with.  No route reads a token back. *)
Record Token : Type := mkToken {
  tok_claims : list (string * JsVal);
  tok_key : string
}.

(** [jwt.decode(token)] *)
Definition jwt_decode (t : Token) : JsVal := JObj (tok_claims t).

(** The argument of [res.json]. *)
Inductive Json : Type :=
| JVal (v : JsVal)
| JTok (t : Token)
| JObject (fields : list (string * Json)).

Record Response : Type := mkResponse {
  status : Z;
  body : Json
}.

(** [res.status(code).json(obj)]; [res.json(obj)] is [json 200 obj]. *)
Definition json (code : Z) (fields : list (string * Json)) : Response :=
  mkResponse code (JObject fields).

Definition str (s : string) : Json := JVal (JStr s).

(** The field [k] of a response body. *)
Definition body_field (r : Response) (k : string) : option Json :=
  match body r with
  | JObject fields => assoc k fields
  | _ => None
  end.

(** The names of the fields of an object, in order. *)
Definition keys (j : Json) : list string :=
  match j with
  | JObject fields => map fst fields
  | _ => []
  end.

(** ** Users and the environment of a request *)

(** A row of the table [User] of the migration: [id] and [email] are
    [NOT NULL], [username] and [password] are nullable. *)
Record User : Type := mkUser {
  user_id : string;
  user_email : string;
  user_username : option string;
  user_password : option string
}.

(** The table [User], rows in insertion order. *)
Definition Db : Type := list User.

(** The value of [new PrismaClient()]. In [server.js] the variable [prisma]
    stays [null] when the client cannot be constructed. *)
Inductive PrismaClient : Type := Client.

(** What a request draws from outside the program: the variable
    [JWT_SECRET] of the process environment, the clock in seconds (the [iat]
    of a token) and the salt bcryptjs generates. *)
Record Env : Type := mkEnv {
  env_JWT_SECRET : option string;
  env_now : Z;
  env_salt : string
}.

(** [process.env.JWT_SECRET || fallback] *)
Definition secret_or (e : Env) (fallback : string) : string :=
  match env_JWT_SECRET e with
  | Some s => if (s =? "")%string then fallback else s
  | None => fallback
  end.

(** A nullable column as a JavaScript value. *)
Definition nullable (o : option string) : JsVal :=
  match o with
  | Some s => JStr s
  | None => JNull
  end.

(** ** The handler monad

    A computation runs on a store of type [S], returns a value or throws,
    and logs the library calls it makes. *)
Inductive Event : Type :=
| CallFindUnique (email : JsVal)
| CallCreate (email username : JsVal) (password : string)
| CallCompare (s : JsVal) (hash : option string)
| CallHash (s : JsVal) (rounds : Z)
| CallSign (payload : list (string * JsVal)) (key : string)
| CallDeleteMany
| CallCreateDestino (id : string).

Record Out (S A : Type) : Type := mkOut {
  result : Res A;
  final : S;
  calls : list Event
}.
Arguments mkOut {S A} result final calls.
Arguments result {S A} o.
Arguments final {S A} o.
Arguments calls {S A} o.

Definition M (S A : Type) : Type := S -> Out S A.

Definition ret {S A : Type} (a : A) : M S A := fun s => mkOut (Val a) s [].

Definition throw {S A : Type} (e : Exn) : M S A := fun s => mkOut (Thrown e) s [].

Definition bind {S A B : Type} (m : M S A) (k : A -> M S B) : M S B :=
  fun s =>
    match m s with
    | mkOut (Thrown e) s1 c1 => mkOut (Thrown e) s1 c1
    | mkOut (Val a) s1 c1 =>
        match k a s1 with
        | mkOut r s2 c2 => mkOut r s2 (c1 ++ c2)
        end
    end.

Notation "x <- m ;; k" := (bind m (fun x => k))
  (at level 61, m at next level, right associativity).
Notation "m ;; k" := (bind m (fun _ => k))
  (at level 61, right associativity).

Definition call {S : Type} (e : Event) : M S unit := fun s => mkOut (Val tt) s [e].

Definition get {S : Type} : M S S := fun s => mkOut (Val s) s [].

Definition put {S : Type} (s' : S) : M S unit := fun _ => mkOut (Val tt) s' [].

Definition lift {S A : Type} (r : Res A) : M S A :=
  match r with
  | Val a => ret a
  | Thrown e => throw e
  end.

(** What a route leaves behind: the response sent, the store and the
    library calls made. *)
Record Reply (S : Type) : Type := mkReply {
  response : Response;
  store : S;
  trace : list Event
}.
Arguments mkReply {S} response store trace.
Arguments response {S} r.
Arguments store {S} r.
Arguments trace {S} r.

(** [try { m } catch (error) { res.status(..).json(handler error) }] *)
Definition try_catch {S : Type} (m : M S Response) (handler : Exn -> Response)
  (s : S) : Reply S :=
  match m s with
  | mkOut (Val r) s1 c => mkReply r s1 c
  | mkOut (Thrown e) s1 c => mkReply (handler e) s1 c
  end.

(** ** What the unique indexes maintain *)

(** No two strings of the list are equal under the collation. *)
Fixpoint distinct `{Platform} (l : list string) : bool :=
  match l with
  | [] => true
  | x :: rest => negb (existsb (collate_eqb x) rest) && distinct rest
  end.

(** Some row of the table carries the email, up to the collation. *)
Definition registered `{Platform} (email : string) (db : Db) : bool :=
  existsb (collate_eqb email) (map user_email db).


(** ** Library operations *)

Section Operations.
Context {P : Platform}.

(** Prisma Client checks the arguments of a query against the schema and
    rejects a query whose value has the wrong type. *)
Definition PrismaClientValidationError (operation : string) : Exn :=
  mkExn "PrismaClientValidationError" ("Invalid `" ++ operation ++ "` invocation").

(** The error for a violated unique constraint (code P2002). *)
Definition UniqueConstraintError (index : string) : Exn :=
  mkExn "PrismaClientKnownRequestError" ("Unique constraint failed on the constraint: `" ++ index ++ "`").

(** [prisma.user.findUnique({ where: { email } })]: the row whose email
    equals [email] under the collation, if any. *)
Definition user_findUnique (email : JsVal) : M Db (option User) :=
  call (CallFindUnique email) ;;
  match email with
  | JStr e =>
      db <- get ;;
      ret (find (fun u => collate_eqb e (user_email u)) db)
  | _ => throw (PrismaClientValidationError "prisma.user.findUnique()")
  end.

(** The value of an optional [String?] field of [data]. *)
Definition optional_string (v : JsVal) : option (option string) :=
  match v with
  | JUndefined | JNull => Some None
  | JStr s => Some (Some s)
  | _ => None
  end.

(** The error for a value longer than its column (code P2000). *)
Definition ValueTooLongError : Exn :=
  mkExn "PrismaClientKnownRequestError"
    "The provided value for the column is too long for the column's type".

(** A string fits a [VARCHAR(191)] column. *)
Definition fits (s : string) : bool := (String.length s <=? 191)%nat.

Definition fits_nullable (o : option string) : bool :=
  match o with
  | Some s => fits s
  | None => true
  end.

(** [prisma.user.create({ data: { email, username, password } })]: the
    arguments are validated, the values must fit their [VARCHAR(191)]
    columns, the id is generated (an id Prisma generates fits), and the
    unique index [User_email_key] and the primary key guard the
    insertion. *)
Definition user_create (email username : JsVal) (password : string) : M Db User :=
  call (CallCreate email username password) ;;
  match email, optional_string username with
  | JStr e, Some uname =>
      db <- get ;;
      if negb (fits e && fits_nullable uname && fits password) then
        throw ValueTooLongError
      else if existsb (collate_eqb e) (map user_email db) then
        throw (UniqueConstraintError "User_email_key")
      else
        let id := fresh_id (map user_id db) in
        if existsb (collate_eqb id) (map user_id db) then
          throw (UniqueConstraintError "PRIMARY")
        else
          let user := mkUser id e uname (Some password) in
          put (db ++ [user])%list ;;
          ret user
  | _, _ => throw (PrismaClientValidationError "prisma.user.create()")
  end.

(** bcryptjs rejects an argument that is not a string. *)
Definition IllegalArguments (a b : string) : Exn :=
  mkExn "Error" ("Illegal arguments: " ++ a ++ ", " ++ b).

(** [bcrypt.hash(s, rounds)] *)
Definition bcrypt_hash {S : Type} (env : Env) (s : JsVal) (rounds : Z) : M S string :=
  call (CallHash s rounds) ;;
  match s with
  | JStr p => ret (bcrypt_digest rounds (env_salt env) p)
  | _ => throw (IllegalArguments (typeof s) "number")
  end.

(** [bcrypt.compare(s, hash)], with [hash] read from a nullable column. *)
Definition bcrypt_compare {S : Type} (s : JsVal) (hash : option string) : M S bool :=
  call (CallCompare s hash) ;;
  match s, hash with
  | JStr p, Some h => ret (bcrypt_verify p h)
  | _, _ => throw (IllegalArguments (typeof s) (typeof (nullable hash)))
  end.

(** [jwt.sign(payload, key, { expiresIn: '24h' })]: the claims [iat] and
    [exp] are added to the payload. *)
Definition jwt_sign {S : Type} (env : Env) (payload : list (string * JsVal))
  (key : string) : M S Token :=
  call (CallSign payload key) ;;
  ret (mkToken (payload ++ [("iat", JNum (env_now env)); ("exp", JNum (env_now env + 24 * 3600))]) key).

(** The public view of a row: [{ id: user.id, email: user.email,
    username: user.username }]. *)
Definition public_user (user : User) : Json :=
  JObject [("id", str (user_id user));
           ("email", str (user_email user));
           ("username", JVal (nullable (user_username user)))].

End Operations.

(** ** server.js *)

Module Server.
Section Handlers.
Context {P : Platform}.

(** The [catch] block of every route. *)
Definition internal_error (error : Exn) : Response :=
  json 500 [("error", str "Error interno del servidor");
            ("details", str (exn_message error))].

(** [app.post('/auth/login', ...)] *)
Definition login (prisma : option PrismaClient) (env : Env) (req_body : JsVal)
  : Db -> Reply Db :=
  try_catch
    (email <- lift (get_prop req_body "email") ;;
     password <- lift (get_prop req_body "password") ;;
     if negb (truthy email) || negb (truthy password) then
       ret (json 400 [("error", str "Email y contraseña son requeridos")])
     else
       match prisma with
       | None =>
           if strict_eq_str email "test@test.com" && strict_eq_str password "123456" then
             token <- jwt_sign env [("userId", JStr "test-user-id"); ("email", email)]
                        (secret_or env "test-secret") ;;
             ret (json 200 [("message", str "Login exitoso (modo simulación)");
                            ("token", JTok token);
                            ("user", JObject [("id", str "test-user-id");
                                              ("email", JVal email);
                                              ("username", str "usuario_prueba")]);
                            ("simulated", JVal (JBool true))])
           else
             ret (json 400 [("error", str "Credenciales inválidas. Usa: test@test.com / 123456");
                            ("simulated", JVal (JBool true))])
       | Some _ =>
           user <- user_findUnique email ;;
           match user with
           | None => ret (json 400 [("error", str "Usuario no encontrado")])
           | Some user =>
               isPasswordValid <- bcrypt_compare password (user_password user) ;;
               if negb isPasswordValid then
                 ret (json 400 [("error", str "Contraseña incorrecta")])
               else
                 token <- jwt_sign env [("userId", JStr (user_id user));
                                        ("email", JStr (user_email user))]
                            (secret_or env "fallback-secret") ;;
                 ret (json 200 [("message", str "Login exitoso");
                                ("token", JTok token);
                                ("user", public_user user)])
           end
       end)
    internal_error.

(** [app.post('/auth/register', ...)] *)
Definition register (prisma : option PrismaClient) (env : Env) (req_body : JsVal)
  : Db -> Reply Db :=
  try_catch
    (email <- lift (get_prop req_body "email") ;;
     password <- lift (get_prop req_body "password") ;;
     username <- lift (get_prop req_body "username") ;;
     if negb (truthy email) || negb (truthy password) then
       ret (json 400 [("error", str "Email y contraseña son requeridos")])
     else
       password_length <- lift (get_prop password "length") ;;
       too_short <- lift (js_lt password_length 6) ;;
       if too_short then
         ret (json 400 [("error", str "La contraseña debe tener al menos 6 caracteres")])
       else
         match prisma with
         | None =>
             token <- jwt_sign env [("userId", JStr "new-user-id"); ("email", email)]
                        (secret_or env "test-secret") ;;
             ret (json 201 [("message", str "Usuario registrado exitosamente (modo simulación)");
                            ("token", JTok token);
                            ("user", JObject [("id", str "new-user-id");
                                              ("email", JVal email);
                                              ("username", JVal (js_or username (JStr "nuevo_usuario")))]);
                            ("simulated", JVal (JBool true))])
         | Some _ =>
             existingUser <- user_findUnique email ;;
             match existingUser with
             | Some _ => ret (json 400 [("error", str "Ya existe un usuario con este email")])
             | None =>
                 hashedPassword <- bcrypt_hash env password 12 ;;
                 user <- user_create email (js_or username JNull) hashedPassword ;;
                 token <- jwt_sign env [("userId", JStr (user_id user));
                                        ("email", JStr (user_email user))]
                            (secret_or env "fallback-secret") ;;
                 ret (json 201 [("message", str "Usuario registrado exitosamente");
                                ("token", JTok token);
                                ("user", public_user user)])
             end
         end)
    internal_error.

(** [app.post('/auth/recover', ...)]: the store is not consulted. *)
Definition recover (prisma : option PrismaClient) (req_body : JsVal)
  : Db -> Reply Db :=
  try_catch
    (email <- lift (get_prop req_body "email") ;;
     if negb (truthy email) then
       ret (json 400 [("error", str "Email es requerido")])
     else
       (* console.log(`... ${email}`) *)
       lift (to_primitive email) ;;
       ret (json 200 [("message", str "Se ha enviado un email con las instrucciones para recuperar tu contraseña");
                      ("email", JVal email);
                      ("simulated", JVal (JBool true))]))
    internal_error.

End Handlers.
End Server.

(** ** src/routes/auth.js *)

Module Routes.
Section Handlers.
Context {P : Platform}.

(** [const JWT_SECRET = process.env.JWT_SECRET || 'fallback-secret-key-2024'] *)
Definition JWT_SECRET (env : Env) : string := secret_or env "fallback-secret-key-2024".

(** The [catch] block of every route. *)
Definition internal_error (error : Exn) : Response :=
  json 500 [("error", str "Error interno del servidor")].

(** [app.post('/auth/login', ...)] *)
Definition login (env : Env) (req_body : JsVal) : Db -> Reply Db :=
  try_catch
    (email <- lift (get_prop req_body "email") ;;
     password <- lift (get_prop req_body "password") ;;
     if negb (truthy email) || negb (truthy password) then
       ret (json 400 [("error", str "Email y contraseña son requeridos")])
     else
       user <- user_findUnique email ;;
       match user with
       | None => ret (json 400 [("error", str "Usuario no encontrado")])
       | Some user =>
           isPasswordValid <- bcrypt_compare password (user_password user) ;;
           if negb isPasswordValid then
             ret (json 400 [("error", str "Contraseña incorrecta")])
           else
             token <- jwt_sign env [("userId", JStr (user_id user));
                                    ("email", JStr (user_email user))]
                        (JWT_SECRET env) ;;
             ret (json 200 [("message", str "Login exitoso");
                            ("token", JTok token);
                            ("user", public_user user)])
       end)
    internal_error.

(** [app.post('/auth/register', ...)] *)
Definition register (env : Env) (req_body : JsVal) : Db -> Reply Db :=
  try_catch
    (email <- lift (get_prop req_body "email") ;;
     password <- lift (get_prop req_body "password") ;;
     username <- lift (get_prop req_body "username") ;;
     if negb (truthy email) || negb (truthy password) then
       ret (json 400 [("error", str "Email y contraseña son requeridos")])
     else
       password_length <- lift (get_prop password "length") ;;
       too_short <- lift (js_lt password_length 6) ;;
       if too_short then
         ret (json 400 [("error", str "La contraseña debe tener al menos 6 caracteres")])
       else
         existingUser <- user_findUnique email ;;
         match existingUser with
         | Some _ => ret (json 400 [("error", str "Ya existe un usuario con este email")])
         | None =>
             hashedPassword <- bcrypt_hash env password 12 ;;
             user <- user_create email (js_or username JNull) hashedPassword ;;
             token <- jwt_sign env [("userId", JStr (user_id user));
                                    ("email", JStr (user_email user))]
                        (JWT_SECRET env) ;;
             ret (json 201 [("message", str "Usuario registrado exitosamente");
                            ("token", JTok token);
                            ("user", public_user user)])
         end)
    internal_error.

(** [app.post('/auth/recover', ...)] *)
Definition recover (req_body : JsVal) : Db -> Reply Db :=
  try_catch
    (email <- lift (get_prop req_body "email") ;;
     if negb (truthy email) then
       ret (json 400 [("error", str "Email es requerido")])
     else
       user <- user_findUnique email ;;
       match user with
       | None => ret (json 404 [("error", str "Usuario no encontrado")])
       | Some _ =>
           (* console.log(`... ${email}`) *)
           lift (to_primitive email) ;;
           ret (json 200 [("message", str "Se ha enviado un email con las instrucciones para recuperar tu contraseña");
                          ("email", JVal email)])
       end)
    internal_error.

End Handlers.
End Routes.

(** ** Requests that overlap

    A route is an [async] function: it runs until an [await], and other
    requests run in between. A task is the route cut at its library calls:
    what it does next on the store, and how it goes on with the result. *)

Module Async.

Inductive Task : Type :=
| Answer (r : Response)
| Await {X : Type} (m : M Db X) (k : X -> Task).


(** Runs a task to its answer with no other request in between. *)
Fixpoint run (handler : Exn -> Response) (t : Task) (db : Db) : Reply Db :=
  match t with
  | Answer r => mkReply r db []
  | Await m k =>
      match m db with
      | mkOut (Val x) db' c =>
          match run handler (k x) db' with
          | mkReply r db'' c' => mkReply r db'' (c ++ c')
          end
      | mkOut (Thrown e) db' c => mkReply (handler e) db' c
      end
  end.



(** A value computed between two awaits. *)
Definition sync {A : Type} (handler : Exn -> Response) (r : Res A) (k : A -> Task) : Task :=
  match r with
  | Val a => k a
  | Thrown e => Answer (handler e)
  end.

Section Tasks.
Context {P : Platform}.

(** [app.post('/auth/register', ...)] with the store available, as a task:
    the route of [server.js] for the [catch] block [Server.internal_error]
    and the key [secret_or env "fallback-secret"], the route of
    [src/routes/auth.js] for [Routes.internal_error] and
    [Routes.JWT_SECRET env]. *)
Definition register (handler : Exn -> Response) (key : string) (env : Env)
  (req_body : JsVal) : Task :=
  sync handler (get_prop req_body "email") (fun email =>
  sync handler (get_prop req_body "password") (fun password =>
  sync handler (get_prop req_body "username") (fun username =>
  if negb (truthy email) || negb (truthy password) then
    Answer (json 400 [("error", str "Email y contraseña son requeridos")])
  else
    sync handler (get_prop password "length") (fun password_length =>
    sync handler (js_lt password_length 6) (fun too_short =>
    if too_short then
      Answer (json 400 [("error", str "La contraseña debe tener al menos 6 caracteres")])
    else
      Await (user_findUnique email) (fun existingUser =>
      match existingUser with
      | Some _ => Answer (json 400 [("error", str "Ya existe un usuario con este email")])
      | None =>
          Await (bcrypt_hash env password 12) (fun hashedPassword =>
          Await (user_create email (js_or username JNull) hashedPassword) (fun user =>
          Await (jwt_sign env [("userId", JStr (user_id user));
                               ("email", JStr (user_email user))] key) (fun token =>
          Answer (json 201 [("message", str "Usuario registrado exitosamente");
                            ("token", JTok token);
                            ("user", public_user user)]))))
      end)))))).

End Tasks.
End Async.

(** ** prisma/seed.js *)

Module Seed.

(** The properties of a seed entry that [main] passes to the store as they
    are: values of the dataset, of any type. *)
Record Details : Type := mkDetails {
  nombre : JsVal;
  ubicacion : JsVal;
  tipo : JsVal;
  precio : JsVal;
  duracion : JsVal;
  presupuesto : JsVal;
  imagen : JsVal;
  descripcion : JsVal;
  gastos : JsVal;
  tours : JsVal
}.

(** An element [d] of the array [destinos]: [d.id] is a string (the key
    of the table), [d.slug] a string or absent. *)
Record Entry : Type := mkEntry {
  entry_id : string;
  entry_slug : option string;
  entry_details : Details
}.

(** A row of the table [Destino]; its two timestamp columns, which the
    store fills, are left out. *)
Record Destino : Type := mkDestino {
  id : string;
  slug : string;
  details : Details
}.

(** The table [Destino], rows in insertion order. *)
Definition Catalog : Type := list Destino.

(** The [data] of [prisma.destino.create] for the entry [d], with
    [slug: d.slug || d.id]. *)
Definition data_of (d : Entry) : Destino :=
  mkDestino (entry_id d)
    (match entry_slug d with
     | Some s => if (s =? "")%string then entry_id d else s
     | None => entry_id d
     end)
    (entry_details d).

Section Script.
Context {P : Platform}.
(** The export [destinos] of [src/data/destinos.js], which the repository
    does not include. *)
Variable destinos : list Entry.

(** [prisma.destino.deleteMany()] *)
Definition deleteMany : M Catalog unit :=
  call CallDeleteMany ;;
  put [].

(** A value given for a [JSON NOT NULL] column. *)
Definition json_given (v : JsVal) : bool :=
  match v with
  | JUndefined | JNull => false
  | _ => true
  end.

(** A value given for a required [String] field. *)
Definition is_string (v : JsVal) : bool :=
  match v with
  | JStr _ => true
  | _ => false
  end.

(** A value given for the required [Float] field. *)
Definition is_number (v : JsVal) : bool :=
  match v with
  | JNum _ => true
  | _ => false
  end.

(** Prisma's check of the arguments against the model: the seven text
    fields are strings, [precio] is a number, [gastos] and [tours] are
    given. *)
Definition well_typed (data : Destino) : bool :=
  is_string (nombre (details data)) && is_string (ubicacion (details data)) &&
  is_string (tipo (details data)) && is_number (precio (details data)) &&
  is_string (duracion (details data)) && is_string (presupuesto (details data)) &&
  is_string (imagen (details data)) && is_string (descripcion (details data)) &&
  json_given (gastos (details data)) && json_given (tours (details data)).

(** A string value fits a [VARCHAR(191)] column. *)
Definition fits_text (v : JsVal) : bool :=
  match v with
  | JStr s => fits s
  | _ => true
  end.

(** Every string of the row fits its [VARCHAR(191)] column. *)
Definition fits_columns (data : Destino) : bool :=
  fits (id data) && fits (slug data) &&
  fits_text (nombre (details data)) && fits_text (ubicacion (details data)) &&
  fits_text (tipo (details data)) && fits_text (duracion (details data)) &&
  fits_text (presupuesto (details data)) && fits_text (imagen (details data)) &&
  fits_text (descripcion (details data)).

(** A row the table takes, keys apart. *)
Definition accepted (data : Destino) : bool := well_typed data && fits_columns data.

(** [prisma.destino.create({ data })]: the arguments are validated, the
    strings must fit their columns, and the primary key and the unique
    index [Destino_slug_key] guard the insertion. *)
Definition create (data : Destino) : M Catalog unit :=
  call (CallCreateDestino (id data)) ;;
  rows <- get ;;
  if negb (well_typed data) then
    throw (PrismaClientValidationError "prisma.destino.create()")
  else if negb (fits_columns data) then
    throw ValueTooLongError
  else if existsb (collate_eqb (id data)) (map id rows) then
    throw (UniqueConstraintError "PRIMARY")
  else if existsb (collate_eqb (slug data)) (map slug rows) then
    throw (UniqueConstraintError "Destino_slug_key")
  else
    put (rows ++ [data])%list.

(** [for (const d of ds) { await prisma.destino.create({ data: ... }) }] *)
Fixpoint insert_all (ds : list Entry) : M Catalog unit :=
  match ds with
  | [] => ret tt
  | d :: rest => create (data_of d) ;; insert_all rest
  end.

(** [main()]: a rejected promise is the thrown result. *)
Definition main : M Catalog unit :=
  if (List.length destinos =? 0)%nat then
    ret tt
  else
    deleteMany ;;
    insert_all destinos.

End Script.

End Seed.

(** ** A concrete platform

    Binary comparison as the collation, a digest that keeps the password
    next to the salt, and ids that grow with the table: enough to run the
    handlers on examples. *)
Module Concrete.

(** The first [n] characters of a string. *)
Fixpoint take (n : nat) (s : string) : string :=
  match n, s with
  | S n', String c rest => String c (take n' rest)
  | _, _ => EmptyString
  end.

Definition filler : string :=
  "............................................................".

(** Sixty characters: the password, a separator, the salt, then filler. *)
Definition digest (rounds : Z) (salt s : string) : string :=
  take 60 (s ++ "$" ++ salt ++ filler).

Definition verify (s hash : string) : bool := prefix (take 60 (s ++ "$")) hash.

Definition next_id (ids : list string) : string :=
  fold_right (fun i acc => "u" ++ i ++ acc) "u" ids.

End Concrete.

(** * Properties *)

(** ** The concrete platform satisfies the laws *)

Lemma length_append (a b : string) :
  String.length (a ++ b) = (String.length a + String.length b)%nat.
Proof.
  induction a as [|c a IH]; simpl; [reflexivity | now rewrite IH].
Qed.

Lemma prefix_empty (s : string) : prefix "" s = true.
Proof. destruct s; reflexivity. Qed.

Lemma prefix_take (n : nat) (a b : string) :
  prefix (Concrete.take n a) (Concrete.take n (a ++ b)) = true.
Proof.
  revert a. induction n as [|n IH]; intros a; [apply prefix_empty|].
  destruct a as [|c a]; simpl; [apply prefix_empty|].
  destruct (Ascii.ascii_dec c c); [apply IH | congruence].
Qed.

Lemma take_length (n : nat) (s : string) :
  (n <= String.length s)%nat -> String.length (Concrete.take n s) = n.
Proof.
  revert s. induction n as [|n IH]; intros s Hn; [reflexivity|].
  destruct s as [|c s]; simpl in *; [lia|]. rewrite IH; [reflexivity | lia].
Qed.

Lemma concrete_verify_digest (rounds : Z) (salt s : string) :
  Concrete.verify s (Concrete.digest rounds salt s) = true.
Proof.
  unfold Concrete.verify, Concrete.digest.
  replace (s ++ "$" ++ salt ++ Concrete.filler)
    with ((s ++ "$") ++ salt ++ Concrete.filler).
  - apply prefix_take.
  - induction s as [|c s IH]; simpl; [reflexivity | now rewrite IH].
Qed.

Lemma concrete_digest_length (rounds : Z) (salt s : string) :
  String.length (Concrete.digest rounds salt s) = 60%nat.
Proof.
  unfold Concrete.digest. apply take_length.
  rewrite !length_append. simpl. lia.
Qed.

Lemma concrete_next_id_longer (ids : list string) (i : string) :
  In i ids -> (String.length i < String.length (Concrete.next_id ids))%nat.
Proof.
  induction ids as [|j ids IH]; simpl; [tauto|].
  rewrite length_append.
  intros [-> | Hin].
  - lia.
  - specialize (IH Hin). lia.
Qed.

Lemma concrete_next_id_fresh (ids : list string) :
  existsb (String.eqb (Concrete.next_id ids)) ids = false.
Proof.
  destruct (existsb _ ids) eqn:E; [|reflexivity].
  apply existsb_exists in E. destruct E as [i [Hin Heq]].
  apply String.eqb_eq in Heq.
  apply concrete_next_id_longer in Hin. rewrite Heq in Hin. lia.
Qed.

Lemma string_eqb_trans (a b c : string) :
  (a =? b)%string = true -> (b =? c)%string = true -> (a =? c)%string = true.
Proof.
  rewrite !String.eqb_eq. congruence.
Qed.

(** Binary collation, the digest above, growing ids; a string operand of
    [<] never compares below. *)
Definition concrete : Platform := {|
  collate_eqb := String.eqb;
  collate_refl := String.eqb_refl;
  collate_sym := String.eqb_sym;
  collate_trans := string_eqb_trans;
  bcrypt_digest := Concrete.digest;
  bcrypt_verify := Concrete.verify;
  bcrypt_verify_digest := concrete_verify_digest;
  bcrypt_digest_length := concrete_digest_length;
  fresh_id := Concrete.next_id;
  fresh_id_fresh := concrete_next_id_fresh;
  string_operand_lt := fun _ _ => false
|}.

(** ** Reasoning about handlers *)

(** A computation that leaves the store as it found it. *)
Definition read_only {S A : Type} (m : M S A) : Prop :=
  forall s, final (m s) = s.

(** A property of every value a computation returns. *)
Definition returns {S A : Type} (m : M S A) (Q : A -> Prop) : Prop :=
  forall s a, result (m s) = Val a -> Q a.

Section Monad.
Context {S : Type}.

Lemma read_only_ret {A : Type} (a : A) : read_only (S := S) (ret a).
Proof. intro s. reflexivity. Qed.

Lemma read_only_throw {A : Type} (e : Exn) : read_only (S := S) (A := A) (throw e).
Proof. intro s. reflexivity. Qed.

Lemma read_only_lift {A : Type} (r : Res A) : read_only (S := S) (lift r).
Proof. destruct r; intro s; reflexivity. Qed.

Lemma read_only_call (e : Event) : read_only (S := S) (call e).
Proof. intro s. reflexivity. Qed.

Lemma read_only_get : read_only (S := S) get.
Proof. intro s. reflexivity. Qed.

Lemma read_only_bind {A B : Type} (m : M S A) (k : A -> M S B) :
  read_only m -> (forall a, read_only (k a)) -> read_only (bind m k).
Proof.
  intros Hm Hk s. unfold bind. specialize (Hm s).
  destruct (m s) as [[a|e] s1 c1]; simpl in *; [|exact Hm].
  specialize (Hk a s1). destruct (k a s1) as [r s2 c2]. simpl in *. congruence.
Qed.

Lemma read_only_try_catch (m : M S Response) (handler : Exn -> Response) :
  read_only m -> forall s, store (try_catch m handler s) = s.
Proof.
  intros Hm s. unfold try_catch. specialize (Hm s).
  destruct (m s) as [[r|e] s1 c]; exact Hm.
Qed.

Lemma returns_ret {A : Type} (a : A) (Q : A -> Prop) : Q a -> returns (S := S) (ret a) Q.
Proof. intros HQ s a' E. simpl in E. congruence. Qed.

Lemma returns_throw {A : Type} (e : Exn) (Q : A -> Prop) : returns (S := S) (throw e) Q.
Proof. intros s a E. discriminate E. Qed.

Lemma returns_bind {A B : Type} (m : M S A) (k : A -> M S B) (Q : B -> Prop) :
  (forall a, returns (k a) Q) -> returns (bind m k) Q.
Proof.
  intros Hk s b. unfold bind.
  destruct (m s) as [[a|e] s1 c1]; [|discriminate].
  specialize (Hk a s1 b). destruct (k a s1) as [r s2 c2]. exact Hk.
Qed.

Lemma returns_try_catch (m : M S Response) (handler : Exn -> Response)
  (Q : Response -> Prop) :
  returns m Q -> (forall e, Q (handler e)) ->
  forall s, Q (response (try_catch m handler s)).
Proof.
  intros Hm Hh s. unfold try_catch. specialize (Hm s).
  destruct (m s) as [[r|e] s1 c]; simpl in *; [now apply Hm | apply Hh].
Qed.

End Monad.

Create HintDb read_only.

#[local] Hint Resolve read_only_ret read_only_throw read_only_lift read_only_call
  read_only_get : read_only.

Section Frame.
Context {P : Platform}.

Lemma read_only_findUnique (email : JsVal) : read_only (user_findUnique email).
Proof.
  unfold user_findUnique. apply read_only_bind; [auto with read_only|].
  intros _. destruct email; auto with read_only.
  apply read_only_bind; auto with read_only.
Qed.

Lemma read_only_compare (s : JsVal) (hash : option string) :
  read_only (S := Db) (bcrypt_compare s hash).
Proof.
  unfold bcrypt_compare. apply read_only_bind; [auto with read_only|].
  intros _. destruct s, hash; auto with read_only.
Qed.

Lemma read_only_hash (env : Env) (s : JsVal) (rounds : Z) :
  read_only (S := Db) (bcrypt_hash env s rounds).
Proof.
  unfold bcrypt_hash. apply read_only_bind; [auto with read_only|].
  intros _. destruct s; auto with read_only.
Qed.

Lemma read_only_sign (env : Env) (payload : list (string * JsVal)) (key : string) :
  read_only (S := Db) (jwt_sign env payload key).
Proof.
  unfold jwt_sign. apply read_only_bind; auto with read_only.
Qed.

End Frame.

#[local] Hint Resolve read_only_findUnique read_only_compare read_only_hash
  read_only_sign : read_only.

(** Splits a computation along its binds and its branches. *)
Ltac frame :=
  repeat first
    [ progress auto with read_only
    | apply read_only_bind; [|intro]
    | match goal with
      | |- read_only (if ?b then _ else _) => destruct b
      | |- read_only (match ?x with _ => _ end) => destruct x
      end ].

(** C8: login never modifies the user store. Whatever the request, the
    environment and the state of [prisma], and whether the route answers
    200, 400 or 500, the store after [POST /auth/login] is the store before
    it, in [server.js] and in [src/routes/auth.js]. *)
Theorem login_leaves_store_unchanged (P : Platform) (prisma : option PrismaClient)
  (env : Env) (req_body : JsVal) (db : Db) :
  store (Server.login prisma env req_body db) = db /\
  store (Routes.login env req_body db) = db.
Proof.
  split.
  - apply read_only_try_catch. frame.
  - apply read_only_try_catch. frame.
Qed.

(** ** Reading a request *)

Lemma get_prop_other (v : JsVal) (k k' : string) (x : JsVal) :
  get_prop v k = Val x -> exists y, get_prop v k' = Val y.
Proof.
  destruct v; simpl; try discriminate; eauto.
Qed.

Lemma truthy_str (s : string) : (0 < String.length s)%nat -> truthy (JStr s) = true.
Proof.
  destruct s; simpl; [lia | reflexivity].
Qed.

Lemma truthy_nonempty (s : string) : s <> "" -> truthy (JStr s) = true.
Proof.
  intros Hs. apply truthy_str. destruct s; simpl; [congruence | lia].
Qed.

Lemma returns_bind_val {S A B : Type} (a : A) (k : A -> M S B) (Q : B -> Prop) :
  returns (k a) Q -> returns (bind (lift (Val a)) k) Q.
Proof.
  intros Hk s b. unfold bind. simpl. specialize (Hk s b).
  destruct (k a s) as [r s2 c2]. exact Hk.
Qed.

(** Splits a postcondition along the binds and branches of a computation;
    what remains are the responses the computation can return. *)
Ltac post :=
  repeat first
    [ apply returns_throw
    | apply returns_ret
    | apply returns_bind_val
    | apply returns_bind; intro
    | match goal with
      | |- returns (if ?b then _ else _) _ => destruct b
      | |- returns (match ?x with _ => _ end) _ => destruct x
      end ].

(** Case analysis on the innermost scrutinee a computation is stuck on. *)
Ltac break_match :=
  match goal with
  | |- context [match ?x with _ => _ end] =>
      lazymatch x with
      | context [match _ with _ => _ end] => fail
      | _ => destruct x eqn:?
      end
  end.

(** Unfolds a route down to the store and the platform. *)
Ltac unfold_routes :=
  unfold Server.login, Server.register, Server.recover,
    Routes.login, Routes.register, Routes.recover,
    try_catch, bind, lift, user_findUnique, bcrypt_hash, bcrypt_compare,
    user_create, jwt_sign, bind, call, get, put, ret, throw.

(** Every path of a route, one goal each. *)
Ltac paths :=
  unfold_routes;
  repeat (break_match; cbn [response store trace status body json app] in * );
  repeat match goal with
         | H : mkOut _ _ _ = mkOut _ _ _ |- _ => inversion H; clear H; subst
         end.

(** ** The length validation of [POST /auth/register] *)

(** The answer to a password shorter than 6. *)
Definition password_too_short : Response :=
  json 400 [("error", str "La contraseña debe tener al menos 6 caracteres")].

(** The answer to a missing email or password. *)
Definition fields_required : Response :=
  json 400 [("error", str "Email y contraseña son requeridos")].

Section Validation.
Context {P : Platform}.
Variables (prisma : option PrismaClient) (env : Env) (req_body email : JsVal).
Variables (password : string) (db : Db).
Hypothesis Hemail : get_prop req_body "email" = Val email.
Hypothesis Hpresent : truthy email = true.
Hypothesis Hpassword : get_prop req_body "password" = Val (JStr password).

Lemma register_rejects_short :
  (String.length password < 6)%nat -> password <> "" ->
  Server.register prisma env req_body db = mkReply password_too_short db [] /\
  Routes.register env req_body db = mkReply password_too_short db [].
Proof.
  intros Hlen Hne.
  destruct (get_prop_other _ _ "username" _ Hemail) as [u Hu].
  assert (Hlt : (Z.of_nat (String.length password) <? 6) = true) by (apply Z.ltb_lt; lia).
  split.
  - unfold Server.register, try_catch, bind.
    rewrite Hemail, Hpassword, Hu. cbn -[truthy js_lt].
    rewrite Hpresent, truthy_nonempty by assumption. cbn -[truthy].
    rewrite Hlt. reflexivity.
  - unfold Routes.register, try_catch, bind.
    rewrite Hemail, Hpassword, Hu. cbn -[truthy js_lt].
    rewrite Hpresent, truthy_nonempty by assumption. cbn -[truthy].
    rewrite Hlt. reflexivity.
Qed.

Lemma register_accepts_long :
  (6 <= String.length password)%nat ->
  let accepted (r : Response) := r <> password_too_short /\ r <> fields_required in
  accepted (response (Server.register prisma env req_body db)) /\
  accepted (response (Routes.register env req_body db)).
Proof.
  intros Hlen accepted.
  destruct (get_prop_other _ _ "username" _ Hemail) as [u Hu].
  assert (Hlt : (Z.of_nat (String.length password) <? 6) = false) by (apply Z.ltb_ge; lia).
  assert (Htr : truthy (JStr password) = true) by (apply truthy_str; lia).
  split.
  - unfold Server.register. apply returns_try_catch.
    + rewrite Hemail, Hpassword, Hu. do 3 apply returns_bind_val.
      rewrite Hpresent, Htr. cbn [negb orb get_prop String.eqb Ascii.eqb Bool.eqb].
      apply returns_bind_val. cbn [js_lt]. rewrite Hlt.
      post; split; discriminate.
    + intros e. split; discriminate.
  - unfold Routes.register. apply returns_try_catch.
    + rewrite Hemail, Hpassword, Hu. do 3 apply returns_bind_val.
      rewrite Hpresent, Htr. cbn [negb orb get_prop String.eqb Ascii.eqb Bool.eqb].
      apply returns_bind_val. cbn [js_lt]. rewrite Hlt.
      post; split; discriminate.
    + intros e. split; discriminate.
Qed.

End Validation.

(** C5: the boundary of the password length. For a registration request
    with an email and a password present, a password of 5 characters is
    answered 400 with the validation error, and a password of 6 characters
    is not answered with a validation error; in [server.js], whatever the
    state of [prisma], and in [src/routes/auth.js]. *)
Theorem register_password_boundary (P : Platform) (prisma : option PrismaClient)
  (env : Env) (req_body email : JsVal) (password : string) (db : Db) :
  get_prop req_body "email" = Val email ->
  truthy email = true ->
  get_prop req_body "password" = Val (JStr password) ->
  (String.length password = 5%nat ->
     response (Server.register prisma env req_body db) = password_too_short /\
     response (Routes.register env req_body db) = password_too_short) /\
  (String.length password = 6%nat ->
     response (Server.register prisma env req_body db) <> password_too_short /\
     response (Routes.register env req_body db) <> password_too_short).
Proof.
  intros He Ht Hp. split; intros Hlen.
  - assert (Hne : password <> "") by (intros ->; discriminate Hlen).
    destruct (register_rejects_short prisma env req_body email password db He Ht Hp)
      as [Hs Hr]; [lia | assumption |].
    rewrite Hs, Hr. split; reflexivity.
  - destruct (register_accepts_long prisma env req_body email password db He Ht Hp)
      as [[Hs _] [Hr _]]; [lia |].
    split; assumption.
Qed.

(** ** The simulation mode of server.js *)

Lemma strict_eq_str_spec (v : JsVal) (lit : string) :
  strict_eq_str v lit = true <-> v = JStr lit.
Proof.
  destruct v; simpl; try (split; [discriminate | congruence]).
  rewrite String.eqb_eq. split; congruence.
Qed.

Section Simulation.
Context {P : Platform}.
Variables (env : Env) (req_body email password : JsVal) (db : Db).
Hypothesis Hemail : get_prop req_body "email" = Val email.
Hypothesis Hpassword : get_prop req_body "password" = Val password.

Lemma simulated_login_test_user :
  email = JStr "test@test.com" -> password = JStr "123456" ->
  status (response (Server.login None env req_body db)) = 200 /\
  exists token,
    body_field (response (Server.login None env req_body db)) "token" = Some (JTok token).
Proof.
  intros -> ->. unfold Server.login, try_catch, bind.
  rewrite Hemail, Hpassword. cbn. split; [reflexivity | eauto].
Qed.

Lemma simulated_login_other :
  email <> JStr "test@test.com" \/ password <> JStr "123456" ->
  status (response (Server.login None env req_body db)) = 400.
Proof.
  intros Hother.
  assert (Hneq : strict_eq_str email "test@test.com" && strict_eq_str password "123456" = false).
  { apply andb_false_iff.
    destruct Hother as [H | H]; [left | right];
      apply not_true_is_false; rewrite strict_eq_str_spec; exact H. }
  unfold Server.login, try_catch, bind.
  rewrite Hemail, Hpassword. cbn -[truthy strict_eq_str].
  destruct (negb (truthy email) || negb (truthy password)); [reflexivity|].
  rewrite Hneq. reflexivity.
Qed.

Lemma simulated_register (p : string) :
  truthy email = true -> password = JStr p -> (6 <= String.length p)%nat ->
  status (response (Server.register None env req_body db)) = 201 /\
  exists token,
    body_field (response (Server.register None env req_body db)) "token" = Some (JTok token) /\
    get_prop (jwt_decode token) "email" = Val email.
Proof.
  intros Ht Hp Hlen. subst password.
  destruct (get_prop_other _ _ "username" _ Hemail) as [u Hu].
  assert (Hlt : (Z.of_nat (String.length p) <? 6) = false) by (apply Z.ltb_ge; lia).
  unfold Server.register, try_catch, bind.
  rewrite Hemail, Hpassword, Hu. cbn -[truthy js_lt].
  rewrite Ht, truthy_str by lia. cbn -[truthy].
  rewrite Hlt. cbn. split; [reflexivity | eauto].
Qed.

End Simulation.

Lemma simulated_register_read_only (P : Platform) (env : Env) (req_body : JsVal) (db : Db) :
  store (Server.register None env req_body db) = db.
Proof.
  apply read_only_try_catch. frame.
Qed.

(** C9: the simulation mode of [server.js]. With [prisma] null, login
    answers 200 with a token when the email is the string test@test.com and
    the password the string 123456, and 400 for every other pair of values;
    registration of a request that passes the validation answers 201 with a
    token for the email; and neither route changes the user store. *)
Theorem simulation_mode (P : Platform) (env : Env) (req_body email password : JsVal)
  (db : Db) :
  get_prop req_body "email" = Val email ->
  get_prop req_body "password" = Val password ->
  (email = JStr "test@test.com" /\ password = JStr "123456" ->
     status (response (Server.login None env req_body db)) = 200 /\
     exists token,
       body_field (response (Server.login None env req_body db)) "token" = Some (JTok token)) /\
  (email <> JStr "test@test.com" \/ password <> JStr "123456" ->
     status (response (Server.login None env req_body db)) = 400) /\
  (forall p : string,
     truthy email = true -> password = JStr p -> (6 <= String.length p)%nat ->
     status (response (Server.register None env req_body db)) = 201 /\
     exists token,
       body_field (response (Server.register None env req_body db)) "token" = Some (JTok token) /\
       get_prop (jwt_decode token) "email" = Val email) /\
  store (Server.login None env req_body db) = db /\
  store (Server.register None env req_body db) = db.
Proof.
  intros He Hp. repeat split.
  - destruct H as [H1 H2]. eapply simulated_login_test_user; eassumption.
  - destruct H as [H1 H2]. eapply simulated_login_test_user; eassumption.
  - intros H. eapply simulated_login_other; eassumption.
  - eapply simulated_register; eassumption.
  - eapply simulated_register; eassumption.
  - apply read_only_try_catch. frame.
  - apply simulated_register_read_only.
Qed.

(** ** Looking up a user *)

Section Lookup.
Context {P : Platform}.

Lemma find_unregistered (email : string) (db : Db) :
  registered email db = false ->
  find (fun u => collate_eqb email (user_email u)) db = None.
Proof.
  unfold registered. induction db as [|u db IH]; simpl; [reflexivity|].
  intros H. apply orb_false_iff in H. destruct H as [Hu Hdb].
  rewrite Hu. auto.
Qed.

Lemma find_registered (email : string) (db : Db) :
  registered email db = true ->
  exists u, find (fun u => collate_eqb email (user_email u)) db = Some u /\
            In u db /\ collate_eqb email (user_email u) = true.
Proof.
  unfold registered. induction db as [|u db IH]; simpl; [discriminate|].
  destruct (collate_eqb email (user_email u)) eqn:E; simpl.
  - intros _. exists u. auto.
  - intros H. destruct (IH H) as [v [Hf [Hin Hv]]]. exists v. auto.
Qed.




End Lookup.

(** ** A password that is not a string *)

Section NumericPassword.
Context {P : Platform}.
Variables (client : PrismaClient) (env : Env) (req_body : JsVal).
Variables (email : string) (n : Z) (db : Db).
Hypothesis Hemail : get_prop req_body "email" = Val (JStr email).
Hypothesis Hpresent : email <> "".
Hypothesis Hpassword : get_prop req_body "password" = Val (JNum n).
Hypothesis Hnonzero : n <> 0.
Hypothesis Hunused : registered email db = false.

Lemma truthy_num : truthy (JNum n) = true.
Proof.
  simpl. apply negb_true_iff, Z.eqb_neq. exact Hnonzero.
Qed.

Lemma routes_register_numeric_password :
  Routes.register env req_body db =
  mkReply (Routes.internal_error (IllegalArguments "number" "number")) db
    [CallFindUnique (JStr email); CallHash (JNum n) 12].
Proof.
  destruct (get_prop_other _ _ "username" _ Hemail) as [u Hu].
  unfold Routes.register, try_catch, bind.
  rewrite Hemail, Hpassword, Hu. cbn -[truthy js_lt].
  rewrite truthy_nonempty, truthy_num by assumption.
  cbn. rewrite find_unregistered by assumption. reflexivity.
Qed.

Lemma server_register_numeric_password :
  Server.register (Some client) env req_body db =
  mkReply (Server.internal_error (IllegalArguments "number" "number")) db
    [CallFindUnique (JStr email); CallHash (JNum n) 12].
Proof.
  destruct (get_prop_other _ _ "username" _ Hemail) as [u Hu].
  unfold Server.register, try_catch, bind.
  rewrite Hemail, Hpassword, Hu. cbn -[truthy js_lt].
  rewrite truthy_nonempty, truthy_num by assumption.
  cbn. rewrite find_unregistered by assumption. reflexivity.
Qed.

End NumericPassword.

(** C10: the length validation lets a password that is not a string
    through. For a registration request whose password is a number other
    than 0 (123456, say) and whose email is an unused string, with the store
    available, the route does not answer with the validation error: it looks
    the email up and calls [bcrypt.hash] on the number, in [server.js] and in
    [src/routes/auth.js]. *)
Theorem register_number_password_reaches_hash (P : Platform) (client : PrismaClient)
  (env : Env) (req_body : JsVal) (email : string) (n : Z) (db : Db) :
  get_prop req_body "email" = Val (JStr email) ->
  email <> "" ->
  get_prop req_body "password" = Val (JNum n) ->
  n <> 0 ->
  registered email db = false ->
  truthy (JNum n) = true /\ typeof (JNum n) <> "string" /\
  response (Server.register (Some client) env req_body db) <> password_too_short /\
  response (Routes.register env req_body db) <> password_too_short /\
  trace (Server.register (Some client) env req_body db) =
    [CallFindUnique (JStr email); CallHash (JNum n) 12] /\
  trace (Routes.register env req_body db) =
    [CallFindUnique (JStr email); CallHash (JNum n) 12].
Proof.
  intros He Hne Hp Hn Hu.
  rewrite (server_register_numeric_password client env req_body email n db) by assumption.
  rewrite (routes_register_numeric_password env req_body email n db) by assumption.
  repeat split; try discriminate.
  apply truthy_num; assumption.
Qed.

(** ** Password recovery *)

(** The confirmation of [server.js]. *)
Definition recovery_simulated (email : JsVal) : Response :=
  json 200 [("message", str "Se ha enviado un email con las instrucciones para recuperar tu contraseña");
            ("email", JVal email);
            ("simulated", JVal (JBool true))].

(** The confirmation of [src/routes/auth.js]. *)
Definition recovery_sent (email : JsVal) : Response :=
  json 200 [("message", str "Se ha enviado un email con las instrucciones para recuperar tu contraseña");
            ("email", JVal email)].

(** The answer of [src/routes/auth.js] to an email without a user. *)
Definition user_not_found : Response :=
  json 404 [("error", str "Usuario no encontrado")].

Lemma server_recover_any_store (prisma : option PrismaClient) (req_body email : JsVal)
  (db : Db) :
  get_prop req_body "email" = Val email -> truthy email = true ->
  converts email = true ->
  Server.recover prisma req_body db = mkReply (recovery_simulated email) db [].
Proof.
  intros He Ht Hc. unfold Server.recover, try_catch, bind, to_primitive.
  rewrite He. cbn -[truthy converts]. rewrite Ht, Hc. reflexivity.
Qed.

Lemma server_recover_unconvertible (prisma : option PrismaClient) (req_body email : JsVal)
  (db : Db) :
  get_prop req_body "email" = Val email -> truthy email = true ->
  converts email = false ->
  Server.recover prisma req_body db =
  mkReply (Server.internal_error CannotConvert) db [].
Proof.
  intros He Ht Hc. unfold Server.recover, try_catch, bind, to_primitive.
  rewrite He. cbn -[truthy converts]. rewrite Ht, Hc. reflexivity.
Qed.

Lemma routes_recover_unknown (P : Platform) (req_body : JsVal) (email : string) (db : Db) :
  get_prop req_body "email" = Val (JStr email) -> email <> "" ->
  registered email db = false ->
  Routes.recover req_body db = mkReply user_not_found db [CallFindUnique (JStr email)].
Proof.
  intros He Hne Hu. unfold Routes.recover, try_catch, bind.
  rewrite He. cbn -[truthy]. rewrite truthy_nonempty by assumption.
  cbn. rewrite find_unregistered by assumption. reflexivity.
Qed.

Lemma routes_recover_known (P : Platform) (req_body : JsVal) (email : string) (db : Db) :
  get_prop req_body "email" = Val (JStr email) -> email <> "" ->
  registered email db = true ->
  Routes.recover req_body db =
  mkReply (recovery_sent (JStr email)) db [CallFindUnique (JStr email)].
Proof.
  intros He Hne Hr. unfold Routes.recover, try_catch, bind.
  rewrite He. cbn -[truthy]. rewrite truthy_nonempty by assumption.
  destruct (find_registered email db Hr) as [u [Hf _]].
  cbn. rewrite Hf. reflexivity.
Qed.

(** C4: the two recover routes differ. For a request whose email matches
    no stored user, [src/routes/auth.js] answers 404 (user not found) while
    [server.js] answers 200 with the confirmation; and the answer of
    [server.js] is the same on every store, whether the user exists or
    not. *)
Theorem recover_routes_disagree (P : Platform) (prisma : option PrismaClient)
  (req_body : JsVal) (email : string) (db : Db) :
  get_prop req_body "email" = Val (JStr email) ->
  email <> "" ->
  registered email db = false ->
  response (Routes.recover req_body db) = user_not_found /\
  status (response (Routes.recover req_body db)) = 404 /\
  status (response (Server.recover prisma req_body db)) = 200 /\
  (forall db' : Db,
     response (Server.recover prisma req_body db') = recovery_simulated (JStr email)) /\
  response (Routes.recover req_body db) <> response (Server.recover prisma req_body db).
Proof.
  intros He Hne Hu.
  rewrite (routes_recover_unknown P req_body email db He Hne Hu).
  assert (Hs : forall db', Server.recover prisma req_body db' =
                           mkReply (recovery_simulated (JStr email)) db' []).
  { intros db'. apply server_recover_any_store;
      [exact He | now apply truthy_nonempty | reflexivity]. }
  rewrite Hs. repeat split.
  - intros db'. rewrite Hs. reflexivity.
  - discriminate.
Qed.

(** ** Login against the store *)

(** The answer to a password the stored hash does not match. *)
Definition wrong_password : Response :=
  json 400 [("error", str "Contraseña incorrecta")].

(** The token both applications issue for a row, signed with [key]. *)
Definition token_for (env : Env) (key : string) (user : User) : Token :=
  mkToken [("userId", JStr (user_id user)); ("email", JStr (user_email user));
           ("iat", JNum (env_now env)); ("exp", JNum (env_now env + 24 * 3600))] key.

(** The answer to a login that succeeds. *)
Definition logged_in (token : Token) (user : User) : Response :=
  json 200 [("message", str "Login exitoso"); ("token", JTok token);
            ("user", public_user user)].

Section Login.
Context {P : Platform}.
Variables (client : PrismaClient) (env : Env) (req_body : JsVal).
Variables (email : string) (password : JsVal) (db : Db) (user : User).
Hypothesis Hemail : get_prop req_body "email" = Val (JStr email).
Hypothesis Hpresent : email <> "".
Hypothesis Hpassword : get_prop req_body "password" = Val password.
Hypothesis Htruthy : truthy password = true.
Hypothesis Hfound : find (fun u => collate_eqb email (user_email u)) db = Some user.

Ltac run_login :=
  unfold Server.login, Routes.login, try_catch, bind;
  rewrite Hemail, Hpassword; cbn -[truthy];
  rewrite truthy_nonempty, Htruthy by assumption;
  cbn; rewrite Hfound.

Lemma login_wrong_password (p hash : string) :
  password = JStr p -> user_password user = Some hash ->
  bcrypt_verify p hash = false ->
  Server.login (Some client) env req_body db =
    mkReply wrong_password db [CallFindUnique (JStr email); CallCompare (JStr p) (Some hash)] /\
  Routes.login env req_body db =
    mkReply wrong_password db [CallFindUnique (JStr email); CallCompare (JStr p) (Some hash)].
Proof.
  intros Hp Hh Hv. split; run_login; subst password; rewrite Hh; cbn; rewrite Hv; reflexivity.
Qed.

Lemma login_right_password (p hash : string) :
  password = JStr p -> user_password user = Some hash ->
  bcrypt_verify p hash = true ->
  response (Server.login (Some client) env req_body db) =
    logged_in (token_for env (secret_or env "fallback-secret") user) user /\
  response (Routes.login env req_body db) =
    logged_in (token_for env (Routes.JWT_SECRET env) user) user.
Proof.
  intros Hp Hh Hv. split; run_login; subst password; rewrite Hh; cbn; rewrite Hv; reflexivity.
Qed.

Lemma login_without_hash :
  user_password user = None ->
  Server.login (Some client) env req_body db =
    mkReply (Server.internal_error (IllegalArguments (typeof password) "object")) db
      [CallFindUnique (JStr email); CallCompare password None] /\
  Routes.login env req_body db =
    mkReply (Routes.internal_error (IllegalArguments (typeof password) "object")) db
      [CallFindUnique (JStr email); CallCompare password None].
Proof.
  intros Hh. split; run_login; rewrite Hh; destruct password; reflexivity.
Qed.

End Login.

(** C2, at an input where the code departs from it: a user stored without
    a password hash (the column is nullable) and a login with that user's
    email. [bcrypt.compare] rejects the null hash, the [catch] block answers,
    and the status is 500 in both applications, not the 400 of a wrong
    password. *)
Theorem login_null_hash_answers_500 (P : Platform) (client : PrismaClient) (env : Env) :
  let db := [mkUser "u1" "a@b.com" None None] in
  let req_body := JObj [("email", JStr "a@b.com"); ("password", JStr "secret1")] in
  status (response (Server.login (Some client) env req_body db)) = 500 /\
  status (response (Routes.login env req_body db)) = 500 /\
  response (Server.login (Some client) env req_body db) <> wrong_password /\
  response (Routes.login env req_body db) <> wrong_password.
Proof.
  intros db req_body.
  destruct (login_without_hash client env req_body "a@b.com" (JStr "secret1") db
              (mkUser "u1" "a@b.com" None None)) as [Hs Hr];
    try reflexivity; try discriminate.
  - simpl. now rewrite collate_refl.
  - rewrite Hs, Hr. repeat split; discriminate.
Qed.

(** ** Registration against the store *)


(** The answer to a registration that succeeds. *)
Definition signed_up (token : Token) (user : User) : Response :=
  json 201 [("message", str "Usuario registrado exitosamente"); ("token", JTok token);
            ("user", public_user user)].

(** The row a registration inserts. *)
Definition new_user `{Platform} (env : Env) (db : Db) (email password : string)
  (username : option string) : User :=
  mkUser (fresh_id (map user_id db)) email username
    (Some (bcrypt_digest 12 (env_salt env) password)).

(** A username that Prisma accepts for the column: absent, null or a
    string. The route stores a falsy one as null. *)
Definition stored_username (username : JsVal) : option (option string) :=
  optional_string (js_or username JNull).

Lemma fits_nullable_spec (uname : option string) :
  fits_nullable uname = true <->
  forall name : string, uname = Some name -> (String.length name <= 191)%nat.
Proof.
  destruct uname as [name|]; simpl; unfold fits; rewrite ?Nat.leb_le; split.
  - intros H name' Heq. inversion Heq; subst. exact H.
  - intros H. apply H. reflexivity.
  - intros _ name' Heq. discriminate Heq.
  - reflexivity.
Qed.

Section Register.
Context {P : Platform}.
Variables (client : PrismaClient) (env : Env) (req_body : JsVal).
Variables (email password : string) (username : JsVal) (db : Db).
Hypothesis Hemail : get_prop req_body "email" = Val (JStr email).
Hypothesis Hpresent : email <> "".
Hypothesis Hpassword : get_prop req_body "password" = Val (JStr password).
Hypothesis Hlength : (6 <= String.length password)%nat.
Hypothesis Husername : get_prop req_body "username" = Val username.

Ltac run_register :=
  unfold Server.register, Routes.register, try_catch, bind;
  rewrite Hemail, Hpassword, Husername; cbn -[truthy js_lt];
  rewrite truthy_nonempty, truthy_str by (assumption || lia);
  cbn -[truthy js_or];
  replace (Z.of_nat (String.length password) <? 6) with false
    by (symmetry; apply Z.ltb_ge; lia).


Lemma fits_digest (rounds : Z) (salt s : string) :
  fits (bcrypt_digest rounds salt s) = true.
Proof.
  unfold fits. rewrite bcrypt_digest_length. reflexivity.
Qed.

Lemma register_new (uname : option string) :
  registered email db = false ->
  stored_username username = Some uname ->
  fits email = true ->
  fits_nullable uname = true ->
  let user := new_user env db email password uname in
  (response (Server.register (Some client) env req_body db) =
     signed_up (token_for env (secret_or env "fallback-secret") user) user /\
   store (Server.register (Some client) env req_body db) = (db ++ [user])%list) /\
  (response (Routes.register env req_body db) =
     signed_up (token_for env (Routes.JWT_SECRET env) user) user /\
   store (Routes.register env req_body db) = (db ++ [user])%list).
Proof.
  intros Hu Hn Hfe Hfu user. unfold stored_username in Hn.
  assert (He : existsb (collate_eqb email) (map user_email db) = false) by exact Hu.
  split; run_register; rewrite find_unregistered by assumption;
    cbn -[js_or fits fits_nullable]; rewrite Hn; cbn -[js_or fits fits_nullable];
    rewrite Hfe, Hfu, fits_digest; cbn -[js_or]; rewrite He; cbn -[js_or];
    rewrite fresh_id_fresh; split; reflexivity.
Qed.



End Register.

(** ** Registration, then login *)

Section RoundTrip.
Context {P : Platform}.

Lemma find_inserted (email : string) (db : Db) (user : User) :
  registered email db = false ->
  collate_eqb email (user_email user) = true ->
  find (fun u => collate_eqb email (user_email u)) (db ++ [user])%list = Some user.
Proof.
  unfold registered. induction db as [|u db IH]; simpl; intros Hu He.
  - now rewrite He.
  - apply orb_false_iff in Hu. destruct Hu as [Hu Hdb]. rewrite Hu. auto.
Qed.

Lemma token_for_email (env : Env) (key : string) (user : User) :
  get_prop (jwt_decode (token_for env key user)) "email" = Val (JStr (user_email user)).
Proof. reflexivity. Qed.

Lemma token_for_expiry (env : Env) (key : string) (user : User) :
  get_prop (jwt_decode (token_for env key user)) "exp" = Val (JNum (env_now env + 86400)).
Proof. reflexivity. Qed.

End RoundTrip.

(** C1, for values that fit their columns: registration, then login. A
    registration request with an unused email of at most 191 characters, a
    password of at least 6 characters and a username that is falsy or a
    string of at most 191 characters is answered 201 when the store is
    available; a login with the same email and password on the store it
    leaves is answered 200 with a token, and the token decodes to that
    email. In [server.js] and in [src/routes/auth.js]. *)
Theorem register_then_login (P : Platform) (client : PrismaClient) (env env' : Env)
  (req_body login_body : JsVal) (email password : string) (username : JsVal)
  (uname : option string) (db : Db) :
  get_prop req_body "email" = Val (JStr email) ->
  email <> "" ->
  (String.length email <= 191)%nat ->
  get_prop req_body "password" = Val (JStr password) ->
  (6 <= String.length password)%nat ->
  get_prop req_body "username" = Val username ->
  stored_username username = Some uname ->
  (forall name : string, uname = Some name -> (String.length name <= 191)%nat) ->
  registered email db = false ->
  get_prop login_body "email" = Val (JStr email) ->
  get_prop login_body "password" = Val (JStr password) ->
  (let r := Server.register (Some client) env req_body db in
   let l := Server.login (Some client) env' login_body (store r) in
   status (response r) = 201 /\ status (response l) = 200 /\
   exists token, body_field (response l) "token" = Some (JTok token) /\
                 get_prop (jwt_decode token) "email" = Val (JStr email)) /\
  (let r := Routes.register env req_body db in
   let l := Routes.login env' login_body (store r) in
   status (response r) = 201 /\ status (response l) = 200 /\
   exists token, body_field (response l) "token" = Some (JTok token) /\
                 get_prop (jwt_decode token) "email" = Val (JStr email)).
Proof.
  intros He Hne Hwide Hp Hlen Hu Hn Hfu Hfree Hle Hlp.
  apply fits_nullable_spec in Hfu.
  assert (Hfe : fits email = true) by (apply Nat.leb_le; exact Hwide).
  destruct (register_new client env req_body email password username db
              He Hne Hp Hlen Hu uname Hfree Hn Hfe Hfu) as [[Hsr Hss] [Hrr Hrs]].
  set (user := new_user env db email password uname) in *.
  assert (Hfound : find (fun u => collate_eqb email (user_email u)) (db ++ [user])%list = Some user).
  { apply find_inserted; [assumption | apply collate_refl]. }
  assert (Htr : truthy (JStr password) = true) by (apply truthy_str; lia).
  destruct (login_right_password client env' login_body email (JStr password)
              (db ++ [user])%list user Hle Hne Hlp Htr Hfound password
              (bcrypt_digest 12 (env_salt env) password) eq_refl eq_refl
              (bcrypt_verify_digest _ _ _)) as [Hsl Hrl].
  split; cbv zeta.
  - rewrite Hss, Hsr, Hsl. repeat split. eexists. split; reflexivity.
  - rewrite Hrs, Hrr, Hrl. repeat split. eexists. split; reflexivity.
Qed.

(** ** The unique index on emails *)

Section UniqueEmail.
Context {P : Platform}.




(** An insertion that the index admits keeps the emails distinct. *)
Lemma distinct_insert (email : string) (db : Db) (user : User) :
  user_email user = email ->
  registered email db = false ->
  distinct (map user_email db) = true ->
  distinct (map user_email (db ++ [user])%list) = true.
Proof.
  intros He Hfree. subst email.
  induction db as [|u db IH]; simpl; [reflexivity|].
  intros H. apply andb_true_iff in H. destruct H as [Hu Hd].
  unfold registered in Hfree. simpl in Hfree.
  apply orb_false_iff in Hfree. destruct Hfree as [Hne Hfree].
  apply andb_true_iff. split; [|apply IH; assumption].
  rewrite map_app, existsb_app. simpl.
  apply negb_true_iff in Hu. rewrite Hu. simpl.
  rewrite collate_sym, Hne. reflexivity.
Qed.

End UniqueEmail.

(** ** Registrations that overlap *)

Section TaskIsRoute.
Variable handler : Exn -> Response.

Lemma run_answer (r : Response) (db : Db) :
  Async.run handler (Async.Answer r) db = try_catch (ret r) handler db.
Proof. reflexivity. Qed.

Lemma run_await {X : Type} (m : M Db X) (k : X -> Async.Task) (f : X -> M Db Response) :
  (forall x db, Async.run handler (k x) db = try_catch (f x) handler db) ->
  forall db, Async.run handler (Async.Await m k) db = try_catch (bind m f) handler db.
Proof.
  intros Hk db. unfold try_catch, bind. simpl.
  destruct (m db) as [[x|e] db' c]; [|reflexivity].
  rewrite Hk. unfold try_catch.
  destruct (f x db') as [[r|e] db'' c']; reflexivity.
Qed.

Lemma run_sync {A : Type} (r : Res A) (k : A -> Async.Task) (f : A -> M Db Response) :
  (forall a db, Async.run handler (k a) db = try_catch (f a) handler db) ->
  forall db, Async.run handler (Async.sync handler r k) db =
             try_catch (bind (lift r) f) handler db.
Proof.
  intros Hk db. destruct r as [a|e]; simpl; [|reflexivity].
  rewrite Hk. unfold try_catch, bind. simpl.
  destruct (f a db) as [[r|e] db' c]; reflexivity.
Qed.

End TaskIsRoute.

(** Matches a task with the route it was cut from, call by call. *)
Ltac task_is_route :=
  repeat first
    [ apply run_answer
    | apply run_sync; intros ? ?
    | apply run_await; intros ? ?
    | match goal with
      | |- context [if ?b then _ else _] => destruct b
      | |- context [match ?x with Some _ => _ | None => _ end] => destruct x
      end ].

(** Run without another request in between, the task is the route. *)
Lemma register_task_is_route (P : Platform) (client : PrismaClient) (env : Env)
  (req_body : JsVal) (db : Db) :
  Async.run Server.internal_error
    (Async.register Server.internal_error (secret_or env "fallback-secret") env req_body) db =
    Server.register (Some client) env req_body db /\
  Async.run Routes.internal_error
    (Async.register Routes.internal_error (Routes.JWT_SECRET env) env req_body) db =
    Routes.register env req_body db.
Proof.
  unfold Async.register, Server.register, Routes.register.
  split; revert db; task_is_route.
Qed.

Section Overlap.
Context {P : Platform}.
Variables (handler : Exn -> Response) (email : string).
Hypothesis Hwide : fits email = true.

Section Request.
Variables (key : string) (env : Env) (password : string) (username : JsVal).
Variable uname : option string.
Hypothesis Hname : stored_username username = Some uname.
Hypothesis Hfits : fits_nullable uname = true.














End Request.



End Overlap.


(** ** The public view of a user *)

(** The response carries a [user] object whose fields are exactly [id],
    [email] and [username]. *)
Definition has_public_user (r : Response) : Prop :=
  exists user : Json,
    body_field r "user" = Some user /\ keys user = ["id"; "email"; "username"].

(** What an answer with status [code] shows of a user: the public view,
    and no field [password] next to it. *)
Definition public_on (code : Z) (r : Response) : Prop :=
  status r = code ->
  has_public_user r /\ body_field r "password" = None.

(** Closes the goals [post] leaves: a response with another status, or one
    that shows its [user] object. *)
Ltac public_view :=
  intros Hstatus;
  first [ discriminate Hstatus
        | split; [eexists; split; reflexivity | reflexivity] ].

(** The [user] object of the response is made of the three public
    columns of the row [u]: its [id], its [email] and its [username] (null
    for a row without one). *)
Definition shows_row (u : User) (r : Response) : Prop :=
  body_field r "user" =
    Some (JObject [("id", JVal (JStr (user_id u)));
                   ("email", JVal (JStr (user_email u)));
                   ("username", JVal (match user_username u with
                                      | Some name => JStr name
                                      | None => JNull
                                      end))]).

(** No field of the [user] object of the response holds the string [h]. *)
Definition hides (h : string) (r : Response) : Prop :=
  forall (fields : list (string * Json)) (k : string) (v : Json),
    body_field r "user" = Some (JObject fields) ->
    In (k, v) fields -> v <> JVal (JStr h).

(** The hash stored in the row [u] is not in the [user] object of the
    response (unless one of the public columns of the row holds the very
    same string, which the object shows as that column). *)
Definition hides_hash_of (u : User) (r : Response) : Prop :=
  forall h : string,
    user_password u = Some h ->
    h <> user_id u -> h <> user_email u -> user_username u <> Some h ->
    hides h r.

Lemma shows_row_hides (u : User) (r : Response) :
  shows_row u r -> hides_hash_of u r.
Proof.
  unfold shows_row, hides_hash_of, hides.
  intros Hshow h _ Hid Hemail Hname fields k v Hfields Hin.
  rewrite Hshow in Hfields. inversion Hfields; subst fields; clear Hfields.
  simpl in Hin. destruct Hin as [H | [H | [H | []]]]; inversion H; subst; clear H.
  - congruence.
  - congruence.
  - destruct (user_username u); congruence.
Qed.

(** C7: the user object of a successful answer. Whenever login answers 200
    or registration answers 201, the body has a [user] object with exactly
    the fields [id], [email] and [username], and no [password] field; for
    every request, environment and store, in [server.js] (with or without
    [prisma]) and in [src/routes/auth.js]. With the store available the
    object holds the [id], [email] and [username] of one row, the row the
    email of a login finds and the row a registration appends, and nothing
    of its [password]: no field holds the stored hash. Without [prisma] the
    object is made of constants of the source and of values of the request,
    and the answer is the same on every store. *)
Theorem success_returns_public_user (P : Platform) (prisma : option PrismaClient)
  (env : Env) (req_body : JsVal) (db : Db) :
  let login_shows (r : Reply Db) :=
    status (response r) = 200 ->
    exists (u : User) (email : string),
      get_prop req_body "email" = Val (JStr email) /\
      find (fun row => collate_eqb email (user_email row)) db = Some u /\
      In u db /\
      shows_row u (response r) /\ hides_hash_of u (response r) in
  let register_shows (r : Reply Db) :=
    status (response r) = 201 ->
    exists u : User,
      store r = (db ++ [u])%list /\
      shows_row u (response r) /\ hides_hash_of u (response r) in
  (public_on 200 (response (Server.login prisma env req_body db)) /\
   public_on 200 (response (Routes.login env req_body db)) /\
   public_on 201 (response (Server.register prisma env req_body db)) /\
   public_on 201 (response (Routes.register env req_body db))) /\
  (forall client : PrismaClient,
     login_shows (Server.login (Some client) env req_body db) /\
     login_shows (Routes.login env req_body db) /\
     register_shows (Server.register (Some client) env req_body db) /\
     register_shows (Routes.register env req_body db)) /\
  (status (response (Server.login None env req_body db)) = 200 ->
   body_field (response (Server.login None env req_body db)) "user" =
     Some (JObject [("id", JVal (JStr "test-user-id"));
                    ("email", JVal (JStr "test@test.com"));
                    ("username", JVal (JStr "usuario_prueba"))])) /\
  (status (response (Server.register None env req_body db)) = 201 ->
   exists email username : JsVal,
     get_prop req_body "email" = Val email /\
     get_prop req_body "username" = Val username /\
     body_field (response (Server.register None env req_body db)) "user" =
       Some (JObject [("id", JVal (JStr "new-user-id"));
                      ("email", JVal email);
                      ("username", JVal (if truthy username then username
                                         else JStr "nuevo_usuario"))])) /\
  (forall db' : Db,
     response (Server.login None env req_body db) =
       response (Server.login None env req_body db') /\
     response (Server.register None env req_body db) =
       response (Server.register None env req_body db')).
Proof.
  intros login_shows register_shows.
  split; [|split; [|split; [|split]]].
  - unfold Server.login, Routes.login, Server.register, Routes.register.
    split; [|split; [|split]];
      (apply (returns_try_catch _ _ (public_on _)); [post | intros e]; public_view).
  - intros client. unfold login_shows, register_shows.
    split; [|split; [|split]]; paths; intros Hst; try discriminate Hst.
    1, 2: match goal with
          | Hf : find _ _ = Some ?u |- _ =>
              exists u; eexists; split; [reflexivity|]; split; [exact Hf|];
              split; [apply (find_some _ _ Hf)|];
              split; [reflexivity | apply shows_row_hides; reflexivity]
          end.
    all: eexists; split; [reflexivity|];
      split; [reflexivity | apply shows_row_hides; reflexivity].
  - paths; intros Hst; try discriminate Hst.
    match goal with
    | H : _ && _ = true |- _ =>
        apply andb_true_iff in H; destruct H as [H _];
        apply strict_eq_str_spec in H; subst
    end.
    reflexivity.
  - paths; intros Hst; try discriminate Hst.
    do 2 eexists. repeat split.
  - intros db'. split; paths; reflexivity.
Qed.

(** ** The seed script *)

Section SeedProperties.
Context {P : Platform}.

Lemma distinct_middle (l r : list string) (x : string) :
  distinct (l ++ x :: r)%list = true -> existsb (collate_eqb x) l = false.
Proof.
  induction l as [|y l IH]; simpl; [reflexivity|].
  intros H. apply andb_true_iff in H. destruct H as [Hy Hd].
  apply negb_true_iff in Hy. rewrite existsb_app in Hy.
  apply orb_false_iff in Hy. destruct Hy as [_ Hy]. simpl in Hy.
  apply orb_false_iff in Hy. destruct Hy as [Hyx _].
  rewrite collate_sym, Hyx. simpl. apply IH. exact Hd.
Qed.

(** One step of the loop: the insertion goes through exactly when the row
    is accepted and its id and slug are new. *)
Lemma create_run (data : Seed.Destino) (rows : Seed.Catalog) :
  Seed.create data rows =
  if negb (Seed.well_typed data) then
    mkOut (Thrown (PrismaClientValidationError "prisma.destino.create()")) rows
      [CallCreateDestino (Seed.id data)]
  else if negb (Seed.fits_columns data) then
    mkOut (Thrown ValueTooLongError) rows [CallCreateDestino (Seed.id data)]
  else if existsb (collate_eqb (Seed.id data)) (map Seed.id rows) then
    mkOut (Thrown (UniqueConstraintError "PRIMARY")) rows [CallCreateDestino (Seed.id data)]
  else if existsb (collate_eqb (Seed.slug data)) (map Seed.slug rows) then
    mkOut (Thrown (UniqueConstraintError "Destino_slug_key")) rows
      [CallCreateDestino (Seed.id data)]
  else mkOut (Val tt) (rows ++ [data])%list [CallCreateDestino (Seed.id data)].
Proof.
  unfold Seed.create, bind, call, get, put, throw.
  destruct (Seed.well_typed data); [|reflexivity].
  destruct (Seed.fits_columns data); [|reflexivity]. cbn [negb].
  destruct (existsb (collate_eqb (Seed.id data)) (map Seed.id rows)); [reflexivity|].
  destruct (existsb (collate_eqb (Seed.slug data)) (map Seed.slug rows)); reflexivity.
Qed.

Lemma insert_all_cons (d : Seed.Entry) (ds : list Seed.Entry) (rows : Seed.Catalog) :
  Seed.insert_all (d :: ds) rows =
  match Seed.create (Seed.data_of d) rows with
  | mkOut (Thrown e) s1 c1 => mkOut (Thrown e) s1 c1
  | mkOut (Val _) s1 c1 =>
      match Seed.insert_all ds s1 with
      | mkOut r s2 c2 => mkOut r s2 (c1 ++ c2)
      end
  end.
Proof. reflexivity. Qed.

(** The loop of [main] on rows the table accepts and whose keys stay
    distinct: every entry is inserted, in order. *)
Lemma insert_all_distinct (ds : list Seed.Entry) (rows : Seed.Catalog) :
  forallb Seed.accepted (map Seed.data_of ds) = true ->
  distinct (map Seed.id rows ++ map Seed.id (map Seed.data_of ds))%list = true ->
  distinct (map Seed.slug rows ++ map Seed.slug (map Seed.data_of ds))%list = true ->
  result (Seed.insert_all ds rows) = Val tt /\
  final (Seed.insert_all ds rows) = (rows ++ map Seed.data_of ds)%list.
Proof.
  revert rows. induction ds as [|d ds IH]; intros rows Hok Hid Hslug.
  - simpl. now rewrite app_nil_r.
  - cbn [map forallb] in Hok, Hid, Hslug.
    apply andb_true_iff in Hok. destruct Hok as [Hd Hok].
    unfold Seed.accepted in Hd. apply andb_true_iff in Hd. destruct Hd as [Hty Hfit].
    pose proof (distinct_middle _ _ _ Hid) as Hi.
    pose proof (distinct_middle _ _ _ Hslug) as Hs.
    destruct (IH (rows ++ [Seed.data_of d])%list) as [Hr Hf].
    + exact Hok.
    + rewrite map_app, <- app_assoc. exact Hid.
    + rewrite map_app, <- app_assoc. exact Hslug.
    + rewrite insert_all_cons, create_run, Hty, Hfit, Hi, Hs. cbn [negb].
      destruct (Seed.insert_all ds (rows ++ [Seed.data_of d])%list) as [r s2 c2].
      simpl in *. rewrite Hr, Hf, <- app_assoc. auto.
Qed.

Lemma main_nonempty (destinos : list Seed.Entry) (catalog : Seed.Catalog) :
  destinos <> [] ->
  Seed.main destinos catalog =
  match Seed.insert_all destinos [] with
  | mkOut r s2 c2 => mkOut r s2 (CallDeleteMany :: c2)
  end.
Proof.
  intros Hne. destruct destinos as [|d ds]; [congruence|]. reflexivity.
Qed.

Lemma main_replaces (destinos : list Seed.Entry) (catalog : Seed.Catalog) :
  destinos <> [] ->
  forallb Seed.accepted (map Seed.data_of destinos) = true ->
  distinct (map Seed.id (map Seed.data_of destinos)) = true ->
  distinct (map Seed.slug (map Seed.data_of destinos)) = true ->
  result (Seed.main destinos catalog) = Val tt /\
  final (Seed.main destinos catalog) = map Seed.data_of destinos.
Proof.
  intros Hne Hok Hid Hslug. rewrite (main_nonempty destinos catalog Hne).
  destruct (insert_all_distinct destinos [] Hok Hid Hslug) as [Hr Hf].
  destruct (Seed.insert_all destinos []) as [r s2 c2]. auto.
Qed.

End SeedProperties.

(** The row [main] builds for an entry: the id and the columns of the
    entry, and as slug its [slug], or its [id] when the slug is absent or
    empty. *)
Definition seeded (d : Seed.Entry) : Seed.Destino :=
  {| Seed.id := Seed.entry_id d;
     Seed.slug := match Seed.entry_slug d with
                  | Some s => if (s =? "")%string then Seed.entry_id d else s
                  | None => Seed.entry_id d
                  end;
     Seed.details :=
       {| Seed.nombre := Seed.nombre (Seed.entry_details d);
          Seed.ubicacion := Seed.ubicacion (Seed.entry_details d);
          Seed.tipo := Seed.tipo (Seed.entry_details d);
          Seed.precio := Seed.precio (Seed.entry_details d);
          Seed.duracion := Seed.duracion (Seed.entry_details d);
          Seed.presupuesto := Seed.presupuesto (Seed.entry_details d);
          Seed.imagen := Seed.imagen (Seed.entry_details d);
          Seed.descripcion := Seed.descripcion (Seed.entry_details d);
          Seed.gastos := Seed.gastos (Seed.entry_details d);
          Seed.tours := Seed.tours (Seed.entry_details d) |} |}.

Lemma data_of_seeded (d : Seed.Entry) : Seed.data_of d = seeded d.
Proof.
  destruct d as [i sl [n u t p du pr im de g to]]. reflexivity.
Qed.

(** A row the table [Destino] takes, keys apart: its seven text columns
    hold strings, [precio] a number, [gastos] and [tours] are given (neither
    absent nor null), and no string, [id] and [slug] included, has more than
    191 characters. *)
Definition storable (row : Seed.Destino) : Prop :=
  exists (nombre ubicacion tipo duracion presupuesto imagen descripcion : string)
         (precio : Z) (gastos tours : JsVal),
    Seed.details row =
      Seed.mkDetails (JStr nombre) (JStr ubicacion) (JStr tipo) (JNum precio)
        (JStr duracion) (JStr presupuesto) (JStr imagen) (JStr descripcion)
        gastos tours /\
    gastos <> JUndefined /\ gastos <> JNull /\
    tours <> JUndefined /\ tours <> JNull /\
    Forall (fun s => (String.length s <= 191)%nat)
      [Seed.id row; Seed.slug row; nombre; ubicacion; tipo; duracion;
       presupuesto; imagen; descripcion].

Lemma json_given_spec (v : JsVal) :
  Seed.json_given v = true <-> v <> JUndefined /\ v <> JNull.
Proof.
  destruct v; simpl; split; try (intros _; split; discriminate);
    try discriminate; intros [H1 H2]; congruence.
Qed.

(** A row with a value of the wrong type in a column is not storable. *)
Ltac not_storable :=
  intros (? & ? & ? & ? & ? & ? & ? & ? & ? & ? & Hd & _); discriminate Hd.

Lemma accepted_storable (row : Seed.Destino) :
  Seed.accepted row = true <-> storable row.
Proof.
  destruct row as [i sl [n u t p du pr im de g to]].
  unfold Seed.accepted, Seed.well_typed, Seed.fits_columns, storable.
  cbn [Seed.details Seed.id Seed.slug Seed.nombre Seed.ubicacion Seed.tipo Seed.precio
       Seed.duracion Seed.presupuesto Seed.imagen Seed.descripcion Seed.gastos Seed.tours].
  assert (Hno : forall X : Prop, (X -> False) -> (false = true <-> X))
    by (intros X HX; split; [discriminate | intros H; destruct (HX H)]).
  destruct n; try (cbn; apply Hno; not_storable).
  destruct u; try (cbn; apply Hno; not_storable).
  destruct t; try (cbn; apply Hno; not_storable).
  destruct p; try (cbn; apply Hno; not_storable).
  destruct du; try (cbn -[Seed.json_given]; rewrite ?andb_false_r; apply Hno; not_storable).
  destruct pr; try (cbn -[Seed.json_given]; rewrite ?andb_false_r; apply Hno; not_storable).
  destruct im; try (cbn -[Seed.json_given]; rewrite ?andb_false_r; apply Hno; not_storable).
  destruct de; try (cbn -[Seed.json_given]; rewrite ?andb_false_r; apply Hno; not_storable).
  cbn -[Seed.json_given fits]. unfold fits.
  rewrite !andb_true_iff, !json_given_spec, !Nat.leb_le.
  split.
  - intros [[[Hg1 Hg2] [Ht1 Ht2]] [[[[[[[[H1 H2] H3] H4] H5] H6] H7] H8] H9]].
    do 10 eexists. split; [reflexivity|].
    repeat split; try assumption.
    repeat (apply Forall_cons; [assumption|]). apply Forall_nil.
  - intros (n' & u' & t' & du' & pr' & im' & de' & p' & g' & to' & Hd & Hg1 & Hg2 & Ht1 & Ht2 & Hall).
    inversion Hd; subst; clear Hd.
    repeat match goal with
           | H : Forall _ (_ :: _) |- _ => inversion H; clear H; subst
           end.
    repeat split; assumption.
Qed.

Lemma forallb_accepted (rows : list Seed.Destino) :
  forallb Seed.accepted rows = true <-> Forall storable rows.
Proof.
  rewrite forallb_forall, Forall_forall.
  split; intros H row Hin; apply accepted_storable; auto.
Qed.

(** C6: seeding twice. The dataset is not empty, every row built from it
    is one the table [Destino] takes (strings in the text columns, a number
    as [precio], [gastos] and [tours] given, no string of more than 191
    characters) and the rows have pairwise distinct ids and slugs. Then
    each run of [main] completes, and after two runs in succession the
    catalog holds exactly one row per entry, in order, with the id, the slug
    ([d.slug || d.id]) and the columns of that entry, whatever it held
    before: the same as after one run. *)
Theorem seed_twice_replaces (P : Platform) (destinos : list Seed.Entry)
  (catalog : Seed.Catalog) :
  destinos <> [] ->
  Forall storable (map seeded destinos) ->
  distinct (map Seed.id (map seeded destinos)) = true ->
  distinct (map Seed.slug (map seeded destinos)) = true ->
  let once := Seed.main destinos catalog in
  let twice := Seed.main destinos (final once) in
  result once = Val tt /\ result twice = Val tt /\
  final twice = map seeded destinos /\
  final twice = final once /\
  List.length (final twice) = List.length destinos.
Proof.
  intros Hne Hok Hid Hslug once twice.
  assert (Hrows : map Seed.data_of destinos = map seeded destinos).
  { apply map_ext. apply data_of_seeded. }
  apply forallb_accepted in Hok. rewrite <- Hrows in Hok, Hid, Hslug.
  destruct (main_replaces destinos catalog Hne Hok Hid Hslug) as [Hr1 Hf1].
  destruct (main_replaces destinos (final once) Hne Hok Hid Hslug) as [Hr2 Hf2].
  fold twice in Hr2, Hf2.
  split; [exact Hr1|]. split; [exact Hr2|]. split; [now rewrite Hf2|].
  split; [rewrite Hf2; symmetry; exact Hf1|]. rewrite Hf2. apply length_map.
Qed.

(** ** The theorems on an example

    The scenario of the specification on the concrete platform: the request
    [{ email: "a@b.com", password: "secret1" }] on an empty store. *)
Module Example.

Definition env : Env := mkEnv None 1700000000 "Nc4sPliXiY3ql0cGbMPTae".

Definition request (email password : string) : JsVal :=
  JObj [("email", JStr email); ("password", JStr password)].

Definition numeric : JsVal :=
  JObj [("email", JStr "a@b.com"); ("password", JNum 123456)].

(** [n] times the character [c]. *)
Fixpoint replicate (n : nat) (c : ascii) : string :=
  match n with
  | O => EmptyString
  | S n' => String c (replicate n' c)
  end.

(** An email of 192 characters. *)
Definition long_email : string := replicate 184 "a" ++ "@b.co.uk".

Definition cusco : Seed.Entry :=
  Seed.mkEntry "cusco" None
    (Seed.mkDetails (JStr "Cusco") (JStr "Cusco, Peru") (JStr "Cultural") (JNum 350)
       (JStr "4 dias") (JStr "Medio") (JStr "cusco.jpg") (JStr "Capital del imperio inca")
       (JObj [("hotel", JNum 200)]) (JArr [JStr "Machu Picchu"])).

Definition paracas : Seed.Entry :=
  Seed.mkEntry "paracas" (Some "islas-ballestas")
    (Seed.mkDetails (JStr "Paracas") (JStr "Ica, Peru") (JStr "Playa") (JNum 180)
       (JStr "2 dias") (JStr "Bajo") (JStr "paracas.jpg") (JStr "Reserva nacional")
       (JObj []) (JArr [])).

End Example.

(** Discharges a hypothesis of a theorem at the example. *)
Ltac at_example :=
  first [ reflexivity | discriminate | simpl; lia | intros; discriminate ].

Lemma register_then_login_example :
  let r := Routes.register (P := concrete) Example.env (Example.request "a@b.com" "secret1") [] in
  status (response r) = 201 /\
  status (response (Routes.login (P := concrete) Example.env
                      (Example.request "a@b.com" "secret1") (store r))) = 200.
Proof.
  destruct (register_then_login concrete Client Example.env Example.env
              (Example.request "a@b.com" "secret1")
              (Example.request "a@b.com" "secret1")
              "a@b.com" "secret1" JUndefined None []) as [_ [Hr [Hl _]]];
    [ at_example .. | split; [exact Hr | exact Hl] ].
Defined.

(** C1 does not hold for an email that does not fit its column: the
    password has 7 characters and the email, of 192 characters, is not in
    the (empty) store, yet registration is answered 500 by both
    applications and nothing is stored, so no login can follow. *)
Lemma register_long_email_fails :
  let req_body := Example.request Example.long_email "secret1" in
  String.length Example.long_email = 192%nat /\
  (6 <= String.length "secret1")%nat /\
  registered (H := concrete) Example.long_email [] = false /\
  status (response (Server.register (P := concrete) (Some Client) Example.env req_body [])) = 500 /\
  status (response (Routes.register (P := concrete) Example.env req_body [])) = 500 /\
  store (Server.register (P := concrete) (Some Client) Example.env req_body []) = [] /\
  store (Routes.register (P := concrete) Example.env req_body []) = [].
Proof.
  cbv zeta. repeat split; try (simpl; lia); vm_compute; reflexivity.
Qed.



Lemma recover_routes_example :
  status (response (Routes.recover (P := concrete) (Example.request "a@b.com" "secret1") [])) = 404 /\
  status (response (Server.recover None (Example.request "a@b.com" "secret1") [])) = 200.
Proof.
  destruct (recover_routes_disagree concrete None
              (Example.request "a@b.com" "secret1") "a@b.com" []) as [_ [Hr [Hs _]]];
    [ at_example .. | split; [exact Hr | exact Hs] ].
Defined.

Lemma register_password_boundary_example :
  response (Routes.register (P := concrete) Example.env (Example.request "a@b.com" "12345") [])
    = password_too_short.
Proof.
  destruct (register_password_boundary concrete None Example.env
              (Example.request "a@b.com" "12345") (JStr "a@b.com") "12345" [])
    as [H5 _]; [ at_example .. | ].
  destruct H5 as [_ Hr]; [ at_example | exact Hr ].
Defined.

Lemma simulation_mode_example :
  status (response (Server.login (P := concrete) None Example.env
                      (Example.request "test@test.com" "123456") [])) = 200.
Proof.
  destruct (simulation_mode concrete Example.env
              (Example.request "test@test.com" "123456")
              (JStr "test@test.com") (JStr "123456") []) as [H200 _];
    [ at_example .. | ].
  destruct H200 as [Hs _]; [ split; reflexivity | exact Hs ].
Defined.

Lemma register_number_password_example :
  trace (Routes.register (P := concrete) Example.env Example.numeric []) =
    [CallFindUnique (JStr "a@b.com"); CallHash (JNum 123456) 12].
Proof.
  destruct (register_number_password_reaches_hash concrete Client Example.env
              Example.numeric "a@b.com" 123456 []) as [_ [_ [_ [_ [_ Hr]]]]];
    [ at_example .. | exact Hr ].
Defined.

Lemma seed_twice_example :
  let once := Seed.main (P := concrete) [Example.cusco; Example.paracas]
                [Seed.data_of Example.paracas] in
  List.length (final (Seed.main (P := concrete) [Example.cusco; Example.paracas] (final once))) = 2%nat.
Proof.
  destruct (seed_twice_replaces concrete [Example.cusco; Example.paracas]
              [Seed.data_of Example.paracas]) as [_ [_ [_ [_ Hl]]]];
    [ at_example | apply forallb_accepted; reflexivity | at_example | at_example
    | exact Hl ].
Defined.

(** * Further properties of the routes *)

(** ** Missing fields *)

(** X1: a request without an email or without a password (absent, null,
    empty string, 0 or false) is answered 400 with the same message by login
    and by registration, in both applications and whatever the state of
    [prisma]; no library is called and the store is left alone. *)
Theorem missing_fields_rejected (P : Platform) (prisma : option PrismaClient)
  (env : Env) (req_body email password : JsVal) (db : Db) :
  get_prop req_body "email" = Val email ->
  get_prop req_body "password" = Val password ->
  truthy email = false \/ truthy password = false ->
  Server.login prisma env req_body db = mkReply fields_required db [] /\
  Routes.login env req_body db = mkReply fields_required db [] /\
  Server.register prisma env req_body db = mkReply fields_required db [] /\
  Routes.register env req_body db = mkReply fields_required db [].
Proof.
  intros He Hp Hmissing.
  destruct (get_prop_other _ _ "username" _ He) as [u Hu].
  assert (Hc : negb (truthy email) || negb (truthy password) = true).
  { destruct Hmissing as [H | H]; rewrite H; [reflexivity | apply orb_true_r]. }
  unfold_routes. rewrite He, Hp, Hu, Hc. repeat split.
Qed.

Lemma missing_fields_example :
  Routes.login (P := concrete) Example.env (Example.request "a@b.com" "") [] =
  mkReply fields_required [] [].
Proof.
  destruct (missing_fields_rejected concrete None Example.env
              (Example.request "a@b.com" "") (JStr "a@b.com") (JStr "") [])
    as [_ [Hr _]]; [ at_example | at_example | right; reflexivity | exact Hr ].
Defined.

(** ** Login against the store, path by path *)

(** The answer to an email without a user. *)
Definition unknown_user : Response :=
  json 400 [("error", str "Usuario no encontrado")].

(** X2: what login tells about an account. With the store available, a
    login with a string email and a string password is answered 400 "Usuario
    no encontrado" when no row has the email, and 400 "Contraseña incorrecta"
    when a row has it with a hash the password does not match: the two
    failures are told apart by their message. Both applications. *)
Theorem login_failures_distinguish_accounts (P : Platform) (client : PrismaClient)
  (env : Env) (req_body : JsVal) (email password : string) (db : Db) :
  get_prop req_body "email" = Val (JStr email) ->
  email <> "" ->
  get_prop req_body "password" = Val (JStr password) ->
  password <> "" ->
  (registered email db = false ->
     response (Server.login (Some client) env req_body db) = unknown_user /\
     response (Routes.login env req_body db) = unknown_user) /\
  (forall (user : User) (hash : string),
     find (fun u => collate_eqb email (user_email u)) db = Some user ->
     user_password user = Some hash ->
     bcrypt_verify password hash = false ->
     response (Server.login (Some client) env req_body db) = wrong_password /\
     response (Routes.login env req_body db) = wrong_password) /\
  unknown_user <> wrong_password.
Proof.
  intros He Hne Hp Hpne.
  pose proof (truthy_nonempty email Hne) as Hte.
  pose proof (truthy_nonempty password Hpne) as Htp.
  split; [|split; [|discriminate]].
  - intros Hfree. apply find_unregistered in Hfree.
    unfold_routes. rewrite He, Hp, Hte, Htp. cbn. rewrite Hfree. split; reflexivity.
  - intros user hash Hf Hh Hv.
    destruct (login_wrong_password client env req_body email (JStr password) db user
                He Hne Hp Htp Hf password hash eq_refl Hh Hv) as [Hs Hr].
    rewrite Hs, Hr. split; reflexivity.
Qed.

Lemma login_failures_example :
  response (Routes.login (P := concrete) Example.env
              (Example.request "a@b.com" "secret1") []) = unknown_user.
Proof.
  destruct (login_failures_distinguish_accounts concrete Client Example.env
              (Example.request "a@b.com" "secret1") "a@b.com" "secret1" [])
    as [Hunknown _]; [ at_example .. | ].
  destruct Hunknown as [_ Hr]; [ at_example | exact Hr ].
Defined.

(** ** Values of the wrong type *)

Lemma converts_array_member (items : list JsVal) (item : JsVal) :
  In item items -> converts item = false -> converts (JArr items) = false.
Proof.
  intros Hin Hc. simpl.
  destruct (forallb converts items) eqn:Hall; [|reflexivity].
  rewrite forallb_forall in Hall. rewrite (Hall item Hin) in Hc. discriminate Hc.
Qed.

(** X3: an email that is present but not a string (a number, [true], an
    array, an object). The store is asked with it and Prisma rejects the
    query, so login and the recover route of [src/routes/auth.js] answer
    500. The recover route of [server.js] asks no store: it answers 200 and
    echoes the value when the value can be converted to a string for the log
    line (a number, [true], an object without an own [toString] property),
    and 500 when that conversion throws (an object with an own [toString]
    property, or an array holding one). No route changes the store. *)
Theorem non_string_email (P : Platform) (prisma : option PrismaClient)
  (client : PrismaClient) (env : Env) (req_body email password : JsVal) (db : Db) :
  get_prop req_body "email" = Val email ->
  truthy email = true ->
  typeof email <> "string" ->
  get_prop req_body "password" = Val password ->
  truthy password = true ->
  let echoed :=
    mkReply
      (mkResponse 200
         (JObject [("message", JVal (JStr "Se ha enviado un email con las instrucciones para recuperar tu contraseña"));
                   ("email", JVal email);
                   ("simulated", JVal (JBool true))])) db [] in
  let failed :=
    mkReply
      (mkResponse 500
         (JObject [("error", JVal (JStr "Error interno del servidor"));
                   ("details", JVal (JStr "Cannot convert object to primitive value"))]))
      db [] in
  status (response (Server.login (Some client) env req_body db)) = 500 /\
  status (response (Routes.login env req_body db)) = 500 /\
  status (response (Routes.recover req_body db)) = 500 /\
  Server.recover prisma req_body db = (if converts email then echoed else failed) /\
  ((forall n : Z, email = JNum n -> Server.recover prisma req_body db = echoed) /\
   (email = JBool true -> Server.recover prisma req_body db = echoed) /\
   (forall fields : list (string * JsVal),
      email = JObj fields -> assoc "toString" fields = None ->
      Server.recover prisma req_body db = echoed) /\
   (forall (fields : list (string * JsVal)) (v : JsVal),
      email = JObj fields -> assoc "toString" fields = Some v ->
      Server.recover prisma req_body db = failed) /\
   (forall (items : list JsVal) (fields : list (string * JsVal)) (v : JsVal),
      email = JArr items -> In (JObj fields) items ->
      assoc "toString" fields = Some v ->
      Server.recover prisma req_body db = failed)) /\
  store (Server.login (Some client) env req_body db) = db /\
  store (Routes.login env req_body db) = db /\
  store (Routes.recover req_body db) = db.
Proof.
  intros He Ht Hty Hp Htp echoed failed.
  assert (Hrecover : Server.recover prisma req_body db =
                     (if converts email then echoed else failed)).
  { destruct (converts email) eqn:Hc.
    - apply (server_recover_any_store prisma req_body email db); assumption.
    - apply (server_recover_unconvertible prisma req_body email db); assumption. }
  split; [|split; [|split; [|split; [exact Hrecover|split]]]].
  4: { rewrite Hrecover. split; [|split; [|split; [|split]]].
       - intros n ->. reflexivity.
       - intros ->. reflexivity.
       - intros fields -> Hnone. simpl. rewrite Hnone. reflexivity.
       - intros fields v -> Hsome. simpl. rewrite Hsome. reflexivity.
       - intros items fields v -> Hin Hsome.
         rewrite (converts_array_member items (JObj fields) Hin); [reflexivity|].
         simpl. rewrite Hsome. reflexivity. }
  all: unfold_routes; rewrite He, ?Hp, Ht, ?Htp;
    destruct email; simpl in Hty; try congruence; cbn; repeat split.
Qed.

Lemma non_string_email_example :
  status (response (Routes.login (P := concrete) Example.env
                      (JObj [("email", JNum 7); ("password", JStr "secret1")]) [])) = 500.
Proof.
  destruct (non_string_email concrete None Client Example.env
              (JObj [("email", JNum 7); ("password", JStr "secret1")])
              (JNum 7) (JStr "secret1") []) as [_ [Hr _]];
    [ at_example .. | exact Hr ].
Defined.

(** X4: a password that is present but not a string, for the email of a
    stored user. [bcrypt.compare] rejects it and login answers 500 in both
    applications, whatever hash the row holds; the store is unchanged. *)
Theorem non_string_password_login (P : Platform) (client : PrismaClient) (env : Env)
  (req_body password : JsVal) (email : string) (db : Db) (user : User) :
  get_prop req_body "email" = Val (JStr email) ->
  email <> "" ->
  get_prop req_body "password" = Val password ->
  truthy password = true ->
  typeof password <> "string" ->
  find (fun u => collate_eqb email (user_email u)) db = Some user ->
  Server.login (Some client) env req_body db =
    mkReply (Server.internal_error
               (IllegalArguments (typeof password) (typeof (nullable (user_password user)))))
      db [CallFindUnique (JStr email); CallCompare password (user_password user)] /\
  Routes.login env req_body db =
    mkReply (json 500 [("error", str "Error interno del servidor")])
      db [CallFindUnique (JStr email); CallCompare password (user_password user)].
Proof.
  intros He Hne Hp Htp Hty Hf.
  unfold_routes. rewrite He, Hp, (truthy_nonempty email Hne), Htp. cbn.
  rewrite Hf.
  destruct password; simpl in Hty; try congruence;
    destruct (user_password user); split; reflexivity.
Qed.

Lemma non_string_password_example :
  status (response (Routes.login (P := concrete) Example.env Example.numeric
            [mkUser "u" "a@b.com" None (Some "123456$salt")])) = 500.
Proof.
  destruct (non_string_password_login concrete Client Example.env Example.numeric
              (JNum 123456) "a@b.com" [mkUser "u" "a@b.com" None (Some "123456$salt")]
              (mkUser "u" "a@b.com" None (Some "123456$salt"))) as [_ Hr];
    [ at_example .. | rewrite Hr; reflexivity ].
Defined.

(** ** What registration does to the store *)

(** The store after a registration: the store before, or that store with
    one more row, for the email and the digest of the password of the
    request, under an email no row had. *)
Definition registers (env : Env) `{Platform} (req_body : JsVal) (db db' : Db)
  (created : bool) : Prop :=
  if created then
    exists (user : User) (password : string),
      db' = (db ++ [user])%list /\
      get_prop req_body "email" = Val (JStr (user_email user)) /\
      get_prop req_body "password" = Val (JStr password) /\
      user_password user = Some (bcrypt_digest 12 (env_salt env) password) /\
      user_id user = fresh_id (map user_id db) /\
      registered (user_email user) db = false
  else db' = db.

Lemma register_effect (P : Platform) (prisma : option PrismaClient)
  (env : Env) (req_body : JsVal) (db : Db) :
  let r := Server.register prisma env req_body db in
  let r' := Routes.register env req_body db in
  registers env req_body db (store r)
    (match prisma with Some _ => status (response r) =? 201 | None => false end) /\
  registers env req_body db (store r') (status (response r') =? 201).
Proof.
  cbv zeta. split; paths; cbn; try reflexivity.
  all: eexists; eexists; repeat split; eassumption.
Qed.


(** X6: registration keeps the two keys of the table. If no two rows of
    the store share an email or an id (up to the collation), the same holds
    after [POST /auth/register], for every request, in both applications. *)
Theorem register_keeps_keys_distinct (P : Platform) (prisma : option PrismaClient)
  (env : Env) (req_body : JsVal) (db : Db) :
  distinct (map user_email db) = true ->
  distinct (map user_id db) = true ->
  (distinct (map user_email (store (Server.register prisma env req_body db))) = true /\
   distinct (map user_id (store (Server.register prisma env req_body db))) = true) /\
  (distinct (map user_email (store (Routes.register env req_body db))) = true /\
   distinct (map user_id (store (Routes.register env req_body db))) = true).
Proof.
  intros He Hi.
  assert (Hkeep : forall (db' : Db) (b : bool),
            registers env req_body db db' b ->
            distinct (map user_email db') = true /\ distinct (map user_id db') = true).
  { intros db' [|] Hr; simpl in Hr.
    - destruct Hr as [user [password [-> [_ [_ [_ [Hid Hfree]]]]]]]. split.
      + apply distinct_insert with (email := user_email user); auto.
      + clear He Hfree. pose proof (fresh_id_fresh (map user_id db)) as Hfresh.
        rewrite <- Hid in Hfresh. clear Hid.
        induction db as [|u db IH]; simpl in *; [reflexivity|].
        apply andb_true_iff in Hi. destruct Hi as [Hu Hd].
        apply orb_false_iff in Hfresh. destruct Hfresh as [Hne Hfresh].
        apply andb_true_iff. split; [|apply IH; assumption].
        rewrite map_app, existsb_app. simpl.
        apply negb_true_iff in Hu. rewrite Hu. simpl.
        rewrite collate_sym, Hne. reflexivity.
    - subst db'. auto. }
  destruct (register_effect P prisma env req_body db) as [Hs Hr].
  split; eapply Hkeep; eassumption.
Qed.

Lemma register_keeps_keys_example :
  @distinct concrete
    (map user_email (store (Routes.register (P := concrete) Example.env
                              (Example.request "c@d.com" "secret1")
                              [mkUser "u" "a@b.com" None None]))) = true.
Proof.
  destruct (register_keeps_keys_distinct concrete None Example.env
              (Example.request "c@d.com" "secret1")
              [mkUser "u" "a@b.com" None None]) as [_ [Hr _]];
    [ at_example .. | exact Hr ].
Defined.

(** ** The key of a token *)

Lemma secret_or_set (env : Env) (key fallback : string) :
  env_JWT_SECRET env = Some key -> key <> "" -> secret_or env fallback = key.
Proof.
  intros Hk Hne. unfold secret_or. rewrite Hk.
  destruct (String.eqb_spec key ""); [congruence | reflexivity].
Qed.

(** ** The token of a successful answer *)




(** ** Simulation mode is not a store *)

(** X9: in the simulation mode of [server.js] nothing is remembered. A
    valid registration is answered 201 every time, also a second time with
    the same email, and a login with the credentials just registered is
    answered 400 unless they are the built-in test@test.com / 123456. *)
Theorem simulation_forgets_registrations (P : Platform) (env env' env'' : Env)
  (req_body email : JsVal) (password : string) (db : Db) :
  get_prop req_body "email" = Val email ->
  truthy email = true ->
  get_prop req_body "password" = Val (JStr password) ->
  (6 <= String.length password)%nat ->
  let first := Server.register None env req_body db in
  let second := Server.register None env' req_body (store first) in
  status (response first) = 201 /\
  status (response second) = 201 /\
  (email <> JStr "test@test.com" \/ password <> "123456" ->
   status (response (Server.login None env'' req_body (store second))) = 400).
Proof.
  intros He Ht Hp Hlen first second.
  split; [|split].
  - apply (simulated_register env req_body email (JStr password) db He Hp password);
      auto.
  - apply (simulated_register env' req_body email (JStr password) (store first) He Hp password);
      auto.
  - intros Hother.
    apply (simulated_login_other env'' req_body email (JStr password) (store second) He Hp).
    destruct Hother as [H | H]; [left; exact H | right; congruence].
Qed.

Lemma simulation_forgets_example :
  status (response (Server.login (P := concrete) None Example.env
                      (Example.request "a@b.com" "secret1") [])) = 400.
Proof.
  destruct (simulation_forgets_registrations concrete Example.env Example.env Example.env
              (Example.request "a@b.com" "secret1") (JStr "a@b.com") "secret1" [])
    as [_ [_ Hl]]; [ at_example .. | ].
  apply Hl. left. discriminate.
Defined.

(** ** Recovery reveals accounts *)

(** X10: the recover route of [src/routes/auth.js] answers by the state of
    the store. For a non-empty string email it answers 200, echoing the
    email, exactly when a user has that email (up to the collation), and 404
    otherwise; it never changes the store. The route of [server.js] gives
    the same confirmation either way. *)
Theorem recover_reveals_registration (P : Platform) (prisma : option PrismaClient)
  (req_body : JsVal) (email : string) (db : Db) :
  get_prop req_body "email" = Val (JStr email) ->
  email <> "" ->
  response (Routes.recover req_body db) =
    (if registered email db then recovery_sent (JStr email) else user_not_found) /\
  store (Routes.recover req_body db) = db /\
  Server.recover prisma req_body db = mkReply (recovery_simulated (JStr email)) db [].
Proof.
  intros He Hne. split; [|split].
  - destruct (registered email db) eqn:R.
    + now rewrite (routes_recover_known P req_body email db He Hne R).
    + now rewrite (routes_recover_unknown P req_body email db He Hne R).
  - apply read_only_try_catch. frame.
  - apply server_recover_any_store; [exact He | now apply truthy_nonempty | reflexivity].
Qed.

Lemma recover_reveals_example :
  response (Routes.recover (P := concrete) (Example.request "a@b.com" "x")
              [mkUser "u" "a@b.com" None None]) = recovery_sent (JStr "a@b.com").
Proof.
  destruct (recover_reveals_registration concrete None (Example.request "a@b.com" "x")
              "a@b.com" [mkUser "u" "a@b.com" None None]) as [Hr _];
    [ at_example .. | exact Hr ].
Defined.

(** * Further properties of the seed script *)

Section SeedOutcome.
Context {P : Platform}.

Lemma distinct_snoc (l : list string) (x : string) :
  distinct l = true -> existsb (collate_eqb x) l = false ->
  distinct (l ++ [x])%list = true.
Proof.
  induction l as [|y l IH]; simpl; [reflexivity|].
  intros H Hx. apply andb_true_iff in H. destruct H as [Hy Hd].
  apply orb_false_iff in Hx. destruct Hx as [Hxy Hx].
  apply andb_true_iff. split; [|auto].
  rewrite existsb_app. simpl. apply negb_true_iff in Hy.
  rewrite Hy, collate_sym, Hxy. reflexivity.
Qed.

(** The loop stops at the first entry it cannot insert and keeps what it
    inserted before. *)
Lemma insert_all_prefix (ds : list Seed.Entry) (rows : Seed.Catalog) :
  exists k : nat,
    (k <= List.length ds)%nat /\
    final (Seed.insert_all ds rows) = (rows ++ map Seed.data_of (firstn k ds))%list /\
    (result (Seed.insert_all ds rows) = Val tt <-> k = List.length ds).
Proof.
  revert rows. induction ds as [|d ds IH]; intros rows.
  - exists 0%nat. simpl. rewrite app_nil_r. repeat split; auto.
  - rewrite insert_all_cons, create_run.
    assert (Hstop : forall e c,
              exists k : nat,
                (k <= List.length (d :: ds))%nat /\
                final (mkOut (A := unit) (Thrown e) rows c) =
                  (rows ++ map Seed.data_of (firstn k (d :: ds)))%list /\
                (result (mkOut (A := unit) (Thrown e) rows c) = Val tt <->
                 k = List.length (d :: ds))).
    { intros e c. exists 0%nat. simpl. rewrite app_nil_r.
      split; [lia|]. split; [reflexivity|].
      split; intros H; [discriminate H | lia]. }
    destruct (negb (Seed.well_typed (Seed.data_of d))); [apply Hstop|].
    destruct (negb (Seed.fits_columns (Seed.data_of d))); [apply Hstop|].
    destruct (existsb (collate_eqb (Seed.id (Seed.data_of d))) (map Seed.id rows));
      [apply Hstop|].
    destruct (existsb (collate_eqb (Seed.slug (Seed.data_of d))) (map Seed.slug rows));
      [apply Hstop|].
    destruct (IH (rows ++ [Seed.data_of d])%list) as [k [Hk [Hf Hr]]].
    destruct (Seed.insert_all ds (rows ++ [Seed.data_of d])%list) as [r s2 c2].
    simpl in *. exists (S k). simpl. rewrite Hf, <- app_assoc. simpl.
    repeat split; try lia.
    + intros H. apply Hr in H. lia.
    + intros H. apply Hr. lia.
Qed.

Lemma insert_all_success (ds : list Seed.Entry) (rows : Seed.Catalog) :
  distinct (map Seed.id rows) = true ->
  distinct (map Seed.slug rows) = true ->
  result (Seed.insert_all ds rows) = Val tt ->
  forallb Seed.accepted (map Seed.data_of ds) = true /\
  distinct (map Seed.id rows ++ map Seed.id (map Seed.data_of ds))%list = true /\
  distinct (map Seed.slug rows ++ map Seed.slug (map Seed.data_of ds))%list = true.
Proof.
  revert rows. induction ds as [|d ds IH]; intros rows Hi Hs.
  - simpl. rewrite !app_nil_r. auto.
  - rewrite insert_all_cons, create_run.
    destruct (Seed.well_typed (Seed.data_of d)) eqn:Hty; [|discriminate].
    destruct (Seed.fits_columns (Seed.data_of d)) eqn:Hfit; [|discriminate].
    cbn [negb].
    destruct (existsb (collate_eqb (Seed.id (Seed.data_of d))) (map Seed.id rows)) eqn:Ei;
      [discriminate|].
    destruct (existsb (collate_eqb (Seed.slug (Seed.data_of d))) (map Seed.slug rows)) eqn:Es;
      [discriminate|].
    specialize (IH (rows ++ [Seed.data_of d])%list).
    destruct (Seed.insert_all ds (rows ++ [Seed.data_of d])%list) as [r s2 c2].
    cbn [result]. intros Hr. rewrite !map_app in IH. cbn [map] in IH.
    rewrite <- !app_assoc in IH. cbn [app] in IH.
    destruct IH as [Hok [Hid Hslug]]; [| | exact Hr |].
    + apply distinct_snoc; assumption.
    + apply distinct_snoc; assumption.
    + cbn [map forallb]. unfold Seed.accepted at 1. rewrite Hty, Hfit. auto.
Qed.

End SeedOutcome.

Lemma main_completed_distinct (P : Platform) (destinos : list Seed.Entry)
  (catalog : Seed.Catalog) :
  destinos <> [] ->
  result (Seed.main destinos catalog) = Val tt ->
  forallb Seed.accepted (map Seed.data_of destinos) = true /\
  distinct (map Seed.id (map Seed.data_of destinos)) = true /\
  distinct (map Seed.slug (map Seed.data_of destinos)) = true.
Proof.
  intros Hne. rewrite (main_nonempty destinos catalog Hne).
  pose proof (insert_all_success destinos [] eq_refl eq_refl) as H.
  destruct (Seed.insert_all destinos []) as [r s2 c2]. exact H.
Qed.

Lemma main_prefix (P : Platform) (destinos : list Seed.Entry) (catalog : Seed.Catalog) :
  destinos <> [] ->
  exists k : nat,
    (k <= List.length destinos)%nat /\
    final (Seed.main destinos catalog) = map Seed.data_of (firstn k destinos) /\
    (result (Seed.main destinos catalog) = Val tt <-> k = List.length destinos).
Proof.
  intros Hne. rewrite (main_nonempty destinos catalog Hne).
  destruct (insert_all_prefix destinos []) as [k [Hk [Hf Hr]]].
  destruct (Seed.insert_all destinos []) as [r s2 c2].
  exists k. auto.
Qed.



(** X12: what the seed leaves behind. With an empty dataset [main] returns
    at once and the catalog keeps its rows. With any other dataset the old
    rows are deleted first and the catalog ends as the rows of the first
    [k] entries, in order: all of them when [main] completes, and those
    inserted before the failing one when it is rejected (the script does not
    roll back). *)
Theorem seed_leaves_prefix (P : Platform) (destinos : list Seed.Entry)
  (catalog : Seed.Catalog) :
  Seed.main [] catalog = mkOut (Val tt) catalog [] /\
  (destinos <> [] ->
   exists k : nat,
     (k <= List.length destinos)%nat /\
     final (Seed.main destinos catalog) = map Seed.data_of (firstn k destinos) /\
     (result (Seed.main destinos catalog) = Val tt <-> k = List.length destinos)).
Proof.
  split; [reflexivity | apply main_prefix].
Qed.

(** X13: a duplicate in the dataset. If two entries of the dataset share
    an id (up to the collation), [main] is rejected, and the catalog is left
    with the rows of a strict prefix of the dataset: the old rows are gone
    and the dataset is not fully loaded. *)
Theorem seed_duplicate_id_fails (P : Platform) (destinos : list Seed.Entry)
  (catalog : Seed.Catalog) :
  distinct (map Seed.id (map Seed.data_of destinos)) = false ->
  (exists e, result (Seed.main destinos catalog) = Thrown e) /\
  (exists k : nat,
     (k < List.length destinos)%nat /\
     final (Seed.main destinos catalog) = map Seed.data_of (firstn k destinos)).
Proof.
  intros Hdup.
  assert (Hne : destinos <> []) by (intros ->; discriminate Hdup).
  assert (Hfail : result (Seed.main destinos catalog) <> Val tt).
  { intros H. apply (main_completed_distinct P destinos catalog Hne) in H.
    destruct H as [_ [H _]]. congruence. }
  destruct (main_prefix P destinos catalog Hne) as [k [Hk [Hf Hr]]].
  split.
  - destruct (result (Seed.main destinos catalog)) as [[]|e]; [congruence | eauto].
  - exists k. split; [|exact Hf].
    assert (k <> List.length destinos) by (intros H; apply Hfail, Hr, H). lia.
Qed.

Lemma seed_duplicate_example :
  exists k : nat,
    (k < 2)%nat /\
    final (Seed.main (P := concrete) [Example.cusco; Example.cusco]
             [Seed.data_of Example.paracas]) =
    map Seed.data_of (firstn k [Example.cusco; Example.cusco]).
Proof.
  destruct (seed_duplicate_id_fails concrete [Example.cusco; Example.cusco]
              [Seed.data_of Example.paracas]) as [_ Hk];
    [ at_example | exact Hk ].
Defined.

(** * The username of a registration *)





(** * The response middleware of server.js *)

Module Middleware.

(** A JavaScript string as the middleware meets it: given text, or the
    text [JSON.stringify] returns for a value. A value handed to [res.send]
    is a string, an object literal of a route, or the [{ message: data }] the
    middleware builds. *)
Inductive Text : Type :=
| Raw (s : string)
| Stringify (d : Data)
with Data : Type :=
| DText (t : Text)
| DBody (fields : list (string * Json))
| DMessage (t : Text).

(** [t.startsWith(c)] for a character [c]: the JSON text of a string
    starts with a quotation mark, that of an object with a brace. *)
Definition startsWith (t : Text) (c : ascii) : bool :=
  match t with
  | Raw EmptyString => false
  | Raw (String c' _) => Ascii.eqb c' c
  | Stringify (DText _) => Ascii.eqb (ascii_of_nat 34) c
  | Stringify (DBody _) | Stringify (DMessage _) => Ascii.eqb "{" c
  end.

(** The [res.send] the middleware installs; the result is the argument of
    [originalSend], the body that goes out. *)
Definition send (data : Data) : Text :=
  let data :=
    match data with
    | DText t =>
        if negb (startsWith t "{") && negb (startsWith t "[") then DMessage t else data
    | _ => data
    end in
  Stringify data.

(** [res.json(obj)] of Express: [this.send(JSON.stringify(obj))], where
    [this.send] is the function above once the middleware has run. *)
Definition json (fields : list (string * Json)) : Text :=
  send (DText (Stringify (DBody fields))).

(** The body that goes out for the response of a route. *)
Definition wire (r : Response) : option Text :=
  match body r with
  | JObject fields => Some (json fields)
  | _ => None
  end.

(** [res.json(obj)] in an application that leaves [res.send] as Express
    defines it ([src/routes/auth.js]): the JSON text of the object is sent
    as it is. *)
Definition plain_json (fields : list (string * Json)) : Text :=
  Stringify (DBody fields).

(** The body that goes out for the response of a route of such an
    application. *)
Definition plain_wire (r : Response) : option Text :=
  match body r with
  | JObject fields => Some (plain_json fields)
  | _ => None
  end.

End Middleware.

(** X15: what the middleware of [server.js] sends. A text that starts
    with neither a brace nor a bracket is sent as the JSON of
    [{ message: text }]. The object of a [res.json] call reaches the
    middleware as a string that starts with a brace, so it is stringified a
    second time: every answer of login, registration and recovery goes out
    as the JSON encoding of a string (which holds the JSON of the object),
    not as the JSON of the object. *)
Theorem middleware_encodes_twice (P : Platform) (prisma : option PrismaClient)
  (env : Env) (req_body : JsVal) (db : Db) :
  let sent_twice (r : Response) :=
    exists fields,
      body r = JObject fields /\
      Middleware.wire r =
        Some (Middleware.Stringify (Middleware.DText
                (Middleware.Stringify (Middleware.DBody fields)))) /\
      Middleware.wire r <> Some (Middleware.Stringify (Middleware.DBody fields)) in
  (forall s : string,
     Middleware.startsWith (Middleware.Raw s) "{" = false ->
     Middleware.startsWith (Middleware.Raw s) "[" = false ->
     Middleware.send (Middleware.DText (Middleware.Raw s)) =
       Middleware.Stringify (Middleware.DMessage (Middleware.Raw s))) /\
  sent_twice (response (Server.login prisma env req_body db)) /\
  sent_twice (response (Server.register prisma env req_body db)) /\
  sent_twice (response (Server.recover prisma req_body db)).
Proof.
  intros sent_twice. split.
  - intros s H1 H2. unfold Middleware.send. rewrite H1, H2. reflexivity.
  - unfold sent_twice.
    split; [|split]; paths; eexists; (split; [reflexivity|]); split;
      try reflexivity; discriminate.
Qed.

(** * The two applications side by side *)

(** X7: with the store available, the login and registration routes of
    [server.js] and [src/routes/auth.js] hand [res.json] the same answers,
    and the two applications send different bodies. For every request the
    two routes set the same status, pass [res.json] an object with the same
    [user] field and leave the same store; and when [JWT_SECRET] is set to a
    non-empty key, every answer other than a 500 passes the same object,
    token included. (The 500 objects differ: [server.js] adds the message of
    the error as [details].) What goes out is never the same:
    [src/routes/auth.js] sends the JSON text of the object, while
    [server.js], whose middleware replaces [res.send], sends the JSON
    encoding of that text. *)
Theorem applications_agree (P : Platform) (client : PrismaClient) (env : Env)
  (req_body : JsVal) (db : Db) :
  let agree (s r : Reply Db) :=
    status (response s) = status (response r) /\
    body_field (response s) "user" = body_field (response r) "user" /\
    store s = store r /\
    (forall key : string,
       env_JWT_SECRET env = Some key -> key <> "" ->
       status (response s) <> 500 -> response s = response r) /\
    (exists fields fields' : list (string * Json),
       body (response s) = JObject fields /\
       body (response r) = JObject fields' /\
       Middleware.wire (response s) =
         Some (Middleware.Stringify (Middleware.DText
                 (Middleware.Stringify (Middleware.DBody fields)))) /\
       Middleware.plain_wire (response r) =
         Some (Middleware.Stringify (Middleware.DBody fields')) /\
       Middleware.wire (response s) <> Middleware.plain_wire (response r)) in
  agree (Server.login (Some client) env req_body db) (Routes.login env req_body db) /\
  agree (Server.register (Some client) env req_body db) (Routes.register env req_body db).
Proof.
  intros agree. unfold agree.
  split; paths;
    (split; [reflexivity|]; split; [reflexivity|]; split; [reflexivity|]; split;
       [ intros key Hk Hne Hst;
         try (exfalso; apply Hst; reflexivity);
         unfold Routes.JWT_SECRET;
         repeat (rewrite (secret_or_set env key) by assumption); reflexivity
       | do 2 eexists;
         split; [reflexivity|]; split; [reflexivity|];
         split; [reflexivity|]; split; [reflexivity | discriminate] ]).
Qed.
